(** * SimpleConvTrainer: a shallow embedding of trainer/trainutils.py

    The module under verification is the glue layer of a convolutional
    network trainer: [get_argv] (the argparse schema), [build_architecture]
    (string dispatch to the network factories), [load_images_and_labels]
    (dataset loading with optional intensity normalisation) and
    [write_training_report] (the plain-text report).

    Python values are modelled by [pyval], exceptions and [sys.exit] by
    [outcome], and everything that touches the process (standard streams,
    the clock, the file system) by explicit state passing over [world]. *)

From Stdlib Require Import ZArith String Ascii List Floats Lia.
From stdpp Require Import base strings gmap list pretty.

Local Open Scope Z_scope.
Local Open Scope string_scope.

(** ** Python values, exceptions and the process monad *)

Module Py.

(** Line feed and horizontal tab, the two control characters of the
    module's string literals. *)
Definition nl : string := String (ascii_of_nat 10) EmptyString.
Definition tab : string := String (ascii_of_nat 9) EmptyString.

(** A [str] is carried by its UTF-8 encoding, the form in which the
    command line reaches the process and the report reaches the file.
    Comparing, splitting at an ASCII character and concatenating are the
    same on the bytes as on the characters. Where Python counts or
    classifies characters the bytes are decoded first, the way the
    interpreter decodes the command line: UTF-8 with the surrogateescape
    handler, by which every byte outside a well-formed sequence stands for
    one lone surrogate. *)
Definition byte_of (c : ascii) : Z := Z.of_N (N_of_ascii c).

Definition between (lo hi b : Z) : bool := Z.leb lo b && Z.leb b hi.

Definition continuation (b : Z) : bool := between 128 191 b.

(** The second byte that the lead byte of a three-byte and of a four-byte
    sequence admits: no overlong form, no surrogate, nothing above
    U+10FFFF. *)
Definition second_of3 (b0 b1 : Z) : bool :=
  if Z.eqb b0 224 then between 160 191 b1
  else if Z.eqb b0 237 then between 128 159 b1
  else between 225 239 b0 && continuation b1.

Definition second_of4 (b0 b1 : Z) : bool :=
  if Z.eqb b0 240 then between 144 191 b1
  else if Z.eqb b0 244 then between 128 143 b1
  else between 241 243 b0 && continuation b1.

Fixpoint code_points (s : string) : list Z :=
  match s with
  | EmptyString => []
  | String c0 s1 =>
      let b0 := byte_of c0 in
      let escaped := (56320 + b0) :: code_points s1 in
      if Z.ltb b0 128 then b0 :: code_points s1
      else
        match s1 with
        | EmptyString => escaped
        | String c1 s2 =>
            let b1 := byte_of c1 in
            if between 194 223 b0 && continuation b1 then
              ((b0 - 192) * 64 + (b1 - 128)) :: code_points s2
            else
              match s2 with
              | EmptyString => escaped
              | String c2 s3 =>
                  let b2 := byte_of c2 in
                  if second_of3 b0 b1 && continuation b2 then
                    ((b0 - 224) * 4096 + (b1 - 128) * 64 + (b2 - 128)) :: code_points s3
                  else
                    match s3 with
                    | EmptyString => escaped
                    | String c3 s4 =>
                        let b3 := byte_of c3 in
                        if second_of4 b0 b1 && continuation b2 && continuation b3 then
                          ((b0 - 240) * 262144 + (b1 - 128) * 4096 +
                           (b2 - 128) * 64 + (b3 - 128)) :: code_points s4
                        else escaped
                    end
              end
        end
  end.

(** [len(s)] *)
Definition py_len (s : string) : nat := List.length (code_points s).

(** The values that flow through the module: [None], [bool], [int], [float]
    (binary64), [str] and [list]. *)
#[warnings="-register-all"]
Inductive pyval : Type :=
| VNone
| VBool (b : bool)
| VInt (z : Z)
| VFloat (f : float)
| VStr (s : string)
| VList (xs : list pyval).

(** A raised exception: its class name and its message. *)
Record pyexn : Type := PyExn { exn_class : string; exn_msg : string }.

(** How a call ends: it returns, it raises, or the process exits
    ([SystemExit] with a status, raised by [sys.exit]). *)
Inductive outcome (A : Type) : Type :=
| Return (a : A)
| Raise (e : pyexn)
| Exit (status : Z).
Arguments Return {A} a.
Arguments Raise {A} e.
Arguments Exit {A} status.

(** The part of the process state the module reads or writes. [sys_argv]
    is the command line, program name first; [clock] is the text
    [datetime.datetime.now()] renders to; [open_error path] is the
    exception the operating system makes [open(path, 'w')] raise, if it
    refuses ([FileNotFoundError] for a missing directory,
    [PermissionError], [IsADirectoryError] and so on, each with the
    message built from its error number), and [None] if it lets the file
    be opened; [files] are the regular files with their contents, keyed by
    the path string as the program spells it. *)
Record world : Type := World {
  sys_argv : list string;
  stdout : string;
  stderr : string;
  clock : string;
  open_error : string -> option pyexn;
  files : gmap string string
}.

Definition M (A : Type) : Type := world -> outcome A * world.

Definition ret {A} (a : A) : M A := fun w => (Return a, w).

Definition bind {A B} (m : M A) (k : A -> M B) : M B :=
  fun w =>
    match m w with
    | (Return a, w') => k a w'
    | (Raise e, w') => (Raise e, w')
    | (Exit st, w') => (Exit st, w')
    end.

Definition raise {A} (cls msg : string) : M A :=
  fun w => (Raise (PyExn cls msg), w).

Definition lift {A} (o : outcome A) : M A := fun w => (o, w).

(** [sys.exit(status)] *)
Definition sys_exit {A} (status : Z) : M A := fun w => (Exit status, w).

(** [print(s)] and writes to the standard streams. *)
Definition write_stdout (s : string) : M unit :=
  fun w => (Return tt, World (sys_argv w) (stdout w +:+ s) (stderr w) (clock w) (open_error w) (files w)).

Definition write_stderr (s : string) : M unit :=
  fun w => (Return tt, World (sys_argv w) (stdout w) (stderr w +:+ s) (clock w) (open_error w) (files w)).

Definition print (s : string) : M unit := write_stdout (s +:+ nl).

(** [datetime.datetime.now()] rendered by [str]. *)
Definition datetime_now : M string := fun w => (Return (clock w), w).

(** What makes [open(path, 'w')] fail: a null character in the path is
    refused by the interpreter before the system is asked; otherwise the
    system decides. *)
Fixpoint has_nul (s : string) : bool :=
  match s with
  | EmptyString => false
  | String c s' => Z.eqb (byte_of c) 0 || has_nul s'
  end.

Definition open_failure (w : world) (path : string) : option pyexn :=
  if has_nul path then Some (PyExn "ValueError" "embedded null byte")
  else open_error w path.


(** [open(path, 'w')]: the file is created or truncated, or the call
    raises and nothing changes. *)
Definition open_w (path : string) : M string :=
  fun w =>
    match open_failure w path with
    | None =>
        (Return path,
         World (sys_argv w) (stdout w) (stderr w) (clock w) (open_error w)
               (<[path := EmptyString]> (files w)))
    | Some e => (Raise e, w)
    end.

(** [f.write(s)] on a file opened for writing: [s] is appended. *)
Definition file_write (f : string) (s : string) : M unit :=
  fun w =>
    (Return tt,
     World (sys_argv w) (stdout w) (stderr w) (clock w) (open_error w)
           (<[f := default EmptyString (files w !! f) +:+ s]> (files w))).

(** [for x in l: body(x)] *)
Fixpoint for_each {A} (l : list A) (body : A -> M unit) : M unit :=
  match l with
  | [] => ret tt
  | x :: l' => bind (body x) (fun _ => for_each l' body)
  end.

(** The pure fragment: [outcome] alone is the error monad. *)
Definition obind {A B} (o : outcome A) (k : A -> outcome B) : outcome B :=
  match o with
  | Return a => k a
  | Raise e => Raise e
  | Exit st => Exit st
  end.

(** Truth value testing, [bool(v)]. *)
Definition py_truthy (v : pyval) : bool :=
  match v with
  | VNone => false
  | VBool b => b
  | VInt z => negb (Z.eqb z 0)
  | VFloat f => negb (PrimFloat.eqb f 0%float)
  | VStr s => negb (String.eqb s "")
  | VList xs => match xs with [] => false | _ :: _ => true end
  end.

(** [v == s] for a string literal [s]: only an equal [str] compares equal. *)
Definition py_eq_str (v : pyval) (s : string) : bool :=
  match v with
  | VStr t => String.eqb t s
  | _ => false
  end.

(** An [argparse.Namespace]: the instance dictionary, in insertion order. *)
Definition Namespace : Type := list (string * pyval).

Fixpoint ns_lookup (ns : Namespace) (name : string) : option pyval :=
  match ns with
  | [] => None
  | (k, v) :: ns' => if String.eqb k name then Some v else ns_lookup ns' name
  end.

(** [setattr(ns, name, v)]: an existing key keeps its place. *)
Fixpoint setattr (ns : Namespace) (name : string) (v : pyval) : Namespace :=
  match ns with
  | [] => [(name, v)]
  | (k, x) :: ns' =>
      if String.eqb k name then (k, v) :: ns' else (k, x) :: setattr ns' name v
  end.

(** [ns.name] *)
Definition getattr (ns : Namespace) (name : string) : outcome pyval :=
  match ns_lookup ns name with
  | Some v => Return v
  | None =>
      Raise (PyExn "AttributeError"
               ("'Namespace' object has no attribute '" +:+ name +:+ "'"))
  end.

End Py.
Export Py.

Notation "'do' x <- m ; k" := (bind m (fun x => k))
  (at level 10, x name, m at level 100, k at level 200, only parsing).
Notation "'do' ' p <- m ; k" := (bind m (fun x => match x with p => k end))
  (at level 10, p pattern, m at level 100, k at level 200, only parsing).
Notation "'exec' m ; k" := (bind m (fun _ => k))
  (at level 10, m at level 100, k at level 200, only parsing).
Notation "'attempt' x <- o ; k" := (obind o (fun x => k))
  (at level 10, x name, o at level 100, k at level 200, only parsing).

(** ** The network factories of [visutils.neuralnets.conv]

    The factories are external; a built model is recorded as the call that
    built it, with the keyword arguments [build_architecture] passes. *)

Inductive model : Type :=
| LeNet_build (width height depth classes : Z)
| KarpathyNet_build (width height depth classes : Z) (dropout : bool)
| MiniVGGNet_build (width height depth classes : Z)
| VGG16_build.

(** Modelled from the spec: [VGG16.build] is not part of this module; the
    spec (and the module's description text) fix its input at 224 x 224 x 3
    and its output at 1000 classes. The other factories declare the input
    shape and class count they are called with. *)
Definition input_shape (m : model) : Z * Z * Z :=
  match m with
  | LeNet_build w h d _ => (w, h, d)
  | KarpathyNet_build w h d _ _ => (w, h, d)
  | MiniVGGNet_build w h d _ => (w, h, d)
  | VGG16_build => (224, 224, 3)
  end.

Definition output_classes (m : model) : Z :=
  match m with
  | LeNet_build _ _ _ c => c
  | KarpathyNet_build _ _ _ c _ => c
  | MiniVGGNet_build _ _ _ c => c
  | VGG16_build => 1000
  end.

(** ** [build_architecture]

    The local variable [model] is bound by one of the four branches or not
    at all; [return model] on an unbound local raises [UnboundLocalError]
    (the wording of its message varies with the interpreter). *)

Definition build_architecture_local (architecture : pyval)
    (width height depth classes : Z) : option model :=
  if py_eq_str architecture "lenet" then
    Some (LeNet_build width height depth classes)
  else if py_eq_str architecture "karpathynet" then
    Some (KarpathyNet_build width height depth classes true)
  else if py_eq_str architecture "minivgg" then
    Some (MiniVGGNet_build width height depth classes)
  else if py_eq_str architecture "vgg16" then
    Some VGG16_build
  else None.

Definition unbound_model : pyexn :=
  PyExn "UnboundLocalError" "local variable 'model' referenced before assignment".

Definition build_architecture (argv : Namespace)
    (width height depth classes : Z) : outcome model :=
  attempt architecture <- getattr argv "architecture";
  match build_architecture_local architecture width height depth classes with
  | Some model => Return model
  | None => Raise unbound_model
  end.

(** The names the dispatch compares against, in source order. *)
Definition dispatched_names : list string :=
  ["lenet"; "karpathynet"; "minivgg"; "vgg16"].

(** ** The [argparse] library

    [get_argv] only declares a schema and calls [parse_args]; what the call
    does is the library's algorithm. It is modelled after CPython's
    [Lib/argparse.py] as of Python 3.11 ([_parse_optional],
    [_get_option_tuples], [consume_optional], [take_action], [_get_values],
    [error]) for a parser without positionals, sub-parsers or mutually
    exclusive groups, which is all [get_argv] builds. The strings of the
    command line are UTF-8 encoded; the one place where the parser looks
    at a class of characters, the digits of a negative number, decodes
    them. The usage and help texts depend on the terminal width; they are
    the parameters [format_usage] and [format_help]. *)

Module Argparse.

(** The [type=] converters the schema uses: the builtins [str], [bool],
    [int] and [float]. *)
Inductive argtype : Type := TStr | TBool | TInt | TFloat.

Definition type_name (t : argtype) : string :=
  match t with
  | TStr => "str" | TBool => "bool" | TInt => "int" | TFloat => "float"
  end.

Inductive action_kind : Type :=
| StoreAction      (* nargs=None: exactly one argument *)
| HelpAction.      (* nargs=0: print the help and exit *)

(** An [argparse.Action]. [dest] and [default] are [None] when they are
    [SUPPRESS], as for the help action. *)
Record action : Type := Action {
  option_strings : list string;
  dest : option string;
  kind : action_kind;
  required : bool;
  default_ : option pyval;
  type_ : argtype
}.

Record ArgumentParser : Type := Parser {
  prog : string;
  description : string;
  actions : list action
}.

(** [ArgumentParser(prog=..., description=...)]: [add_help] defaults to
    true, so the parser starts with the [-h/--help] action. *)
Definition new_parser (prog description : string) : ArgumentParser :=
  Parser prog description
    [Action ["-h"; "--help"] None HelpAction false None TStr].

Fixpoint replace_char (a b : ascii) (s : string) : string :=
  match s with
  | EmptyString => EmptyString
  | String c s' => String (if Ascii.eqb c a then b else c) (replace_char a b s')
  end.

Fixpoint lstrip_dashes (s : string) : string :=
  match s with
  | String "-" s' => lstrip_dashes s'
  | _ => s
  end.

Definition is_long (s : string) : bool := String.prefix "--" s.

(** [_get_optional_kwargs]: the destination is inferred from the first
    long option string (else the first option string), stripped of its
    dashes, with inner dashes turned into underscores. *)
Definition infer_dest (flags : list string) : string :=
  let dest_option_string :=
    match List.find is_long flags with
    | Some long => long
    | None => List.hd "" flags
    end in
  replace_char "-" "_" (lstrip_dashes dest_option_string).

(** [ap.add_argument(flag, ..., required=..., default=..., type=...)] *)
Definition add_argument (ap : ArgumentParser) (flags : list string)
    (required : bool) (default_ : pyval) (type_ : argtype) : ArgumentParser :=
  Parser (prog ap) (description ap)
    (actions ap ++
       [Action flags (Some (infer_dest flags)) StoreAction required (Some default_) type_])%list.

(** [_get_action_name]: ['/'.join(option_strings)]. Option strings are
    unique across a parser, so the name identifies the action. *)
Definition action_name (a : action) : string :=
  String.concat "/" (option_strings a).

(** [_option_string_actions], in insertion order. *)
Definition option_string_actions (ap : ArgumentParser) : list (string * action) :=
  List.flat_map (fun a => List.map (fun s => (s, a)) (option_strings a)) (actions ap).

Fixpoint assoc {A} (k : string) (l : list (string * A)) : option A :=
  match l with
  | [] => None
  | (k', v) :: l' => if String.eqb k' k then Some v else assoc k l'
  end.

(** [s.split('=', 1)] when ['=' in s] *)
Fixpoint split_eq (s : string) : option (string * string) :=
  match s with
  | EmptyString => None
  | String c s' =>
      if Ascii.eqb c "=" then Some (EmptyString, s')
      else match split_eq s' with
           | Some (l, r) => Some (String c l, r)
           | None => None
           end
  end.

Fixpoint contains_char (c : ascii) (s : string) : bool :=
  match s with
  | EmptyString => false
  | String c' s' => Ascii.eqb c' c || contains_char c s'
  end.

(** The decimal digits of Unicode 14.0 (general category [Nd]), which is
    what [\d] matches in a [str] pattern: the first code point of each
    run of ten, [0] to [9] in order. *)
Definition decimal_digit_runs : list Z :=
  [ 48; 1632; 1776; 1984; 2406; 2534; 2662; 2790; 2918; 3046; 3174; 3302;
    3430; 3558; 3664; 3792; 3872; 4160; 4240; 6112; 6160; 6470; 6608; 6784;
    6800; 6992; 7088; 7232; 7248; 42528; 43216; 43264; 43472; 43504; 43600;
    44016; 65296; 66720; 68912; 69734; 69872; 69942; 70096; 70384; 70736;
    70864; 71248; 71360; 71472; 71904; 72016; 72784; 73040; 73120; 92768;
    92864; 93008; 120782; 120792; 120802; 120812; 120822; 123200; 123632;
    125264; 130032 ].

Definition is_digit (cp : Z) : bool :=
  List.existsb (fun first => between first (first + 9) cp) decimal_digit_runs.

Fixpoint all_digits (l : list Z) : bool :=
  match l with
  | [] => true
  | cp :: l' => is_digit cp && all_digits l'
  end.

Fixpoint skip_digits (l : list Z) : list Z :=
  match l with
  | cp :: l' => if is_digit cp then skip_digits l' else l
  | [] => l
  end.

Definition nonempty_digits (l : list Z) : bool :=
  match l with
  | [] => false
  | _ :: _ => all_digits l
  end.

(** [s] with one trailing line feed removed: where [$] may match. *)
Fixpoint chomp (s : string) : string :=
  match s with
  | EmptyString => EmptyString
  | String c s' =>
      if Ascii.eqb c (ascii_of_nat 10) && String.eqb s' "" then EmptyString
      else String c (chomp s')
  end.

(** [_negative_number_matcher]: the regular expression
    [^-\d+$|^-\d*\.\d+$], matched against the characters of [s]: a
    hyphen (45), digits, and in the second form a full stop (46) before
    the last run of digits. *)
Definition negative_number_body (s : string) : bool :=
  match code_points s with
  | 45 :: r =>
      nonempty_digits r ||
      match skip_digits r with
      | 46 :: frac => nonempty_digits frac
      | _ => false
      end
  | _ => false
  end.

Definition negative_number_like (s : string) : bool :=
  negative_number_body s || negative_number_body (chomp s).

Definition has_negative_number_optionals (ap : ArgumentParser) : bool :=
  List.existsb (fun '(s, _) => negative_number_like s) (option_string_actions ap).

(** An option tuple: the action (or [None] for an unknown option), the
    option string and the explicit argument, if one is attached. *)
Definition option_tuple : Type := option action * string * option string.

Definition second_char_is_dash (s : string) : bool :=
  match s with
  | String _ (String "-" _) => true
  | _ => false
  end.

(** [_get_option_tuples]: the abbreviations [arg] may stand for. Called on
    strings of length two or more that start with a dash. *)
Definition get_option_tuples (ap : ArgumentParser) (arg : string) : list option_tuple :=
  if second_char_is_dash arg then
    let '(option_prefix, explicit_arg) :=
      match split_eq arg with
      | Some (l, r) => (l, Some r)
      | None => (arg, None)
      end in
    List.flat_map
      (fun '(os, a) =>
         if String.prefix option_prefix os then [(Some a, os, explicit_arg)] else [])
      (option_string_actions ap)
  else
    let short_option_prefix := String.substring 0 2 arg in
    let short_explicit_arg := String.substring 2 (String.length arg - 2) arg in
    List.flat_map
      (fun '(os, a) =>
         if String.eqb os short_option_prefix then [(Some a, os, Some short_explicit_arg)]
         else if String.prefix arg os then [(Some a, os, None)]
         else [])
      (option_string_actions ap).

Definition tuple_option_string (t : option_tuple) : string := snd (fst t).

(** [_parse_optional]: [inr None] for a positional, [inr (Some t)] for an
    option, [inl msg] when the parser stops with an error. *)
Definition parse_optional (ap : ArgumentParser) (arg : string)
    : string + option option_tuple :=
  match arg with
  | EmptyString => inr None
  | String c _ =>
      if negb (Ascii.eqb c "-") then inr None
      else
        match assoc arg (option_string_actions ap) with
        | Some a => inr (Some (Some a, arg, None))
        | None =>
            if (String.length arg =? 1)%nat then inr None
            else
              let explicit :=
                match split_eq arg with
                | Some (os, e) =>
                    match assoc os (option_string_actions ap) with
                    | Some a => Some (Some a, os, Some e)
                    | None => None
                    end
                | None => None
                end in
              match explicit with
              | Some t => inr (Some t)
              | None =>
                  match get_option_tuples ap arg with
                  | (_ :: _ :: _) as tuples =>
                      inl ("ambiguous option: " +:+ arg +:+ " could match " +:+
                           String.concat ", " (List.map tuple_option_string tuples))
                  | [t] => inr (Some t)
                  | [] =>
                      if negative_number_like arg
                         && negb (has_negative_number_optionals ap)
                      then inr None
                      else if contains_char " " arg then inr None
                      else inr (Some (None, arg, None))
                  end
              end
        end
  end.

(** One letter of [arg_strings_pattern], with what [option_string_indices]
    holds for an ['O']. *)
Inductive argclass : Type :=
| ClsA
| ClsDash
| ClsO (t : option_tuple).

(** The first loop of [_parse_known_args]: after the first [--] every
    string is an argument. *)
Fixpoint classify (ap : ArgumentParser) (args : list string)
    : string + list (string * argclass) :=
  match args with
  | [] => inr []
  | arg :: rest =>
      if String.eqb arg "--" then
        inr ((arg, ClsDash) :: List.map (fun s => (s, ClsA)) rest)
      else
        match parse_optional ap arg with
        | inl msg => inl msg
        | inr cls =>
            match classify ap rest with
            | inl msg => inl msg
            | inr items =>
                inr ((arg, match cls with None => ClsA | Some t => ClsO t end) :: items)
            end
        end
  end.


(** The parsing state: the namespace, the names of the actions seen so far
    and the strings no action consumed. *)
Record pstate : Type := PState {
  ns : Namespace;
  seen : list string;
  extras : list string
}.

Inductive consumed : Type :=
| Consumed (tuples : list (action * list string * string)) (took_next : bool)
| ArgError (msg : string).

(** [str(ArgumentError(action, message))] *)
Definition argument_error (a : action) (message : string) : string :=
  "argument " +:+ action_name a +:+ ": " +:+ message.

Fixpoint remove_first (x : string) (l : list string) : list string :=
  match l with
  | [] => []
  | y :: l' => if String.eqb y x then l' else y :: remove_first x l'
  end.

Section Parsing.

(** The builtins [int(s)] and [float(s)] on a string ([None] when they
    raise [ValueError]), [repr(s)] of a string, and the help formatter. *)
Variable py_int : string -> option Z.
Variable py_float : string -> option float.
Variable str_repr : string -> string.
Variable format_usage : ArgumentParser -> string.
Variable format_help : ArgumentParser -> string.

Definition apply_type (t : argtype) (s : string) : option pyval :=
  match t with
  | TStr => Some (VStr s)
  | TBool => Some (VBool (py_truthy (VStr s)))
  | TInt => option_map VInt (py_int s)
  | TFloat => option_map VFloat (py_float s)
  end.

(** [_get_value]: a [ValueError] of the converter becomes an
    [ArgumentError]. *)
Definition get_value (a : action) (s : string) : string + pyval :=
  match apply_type (type_ a) s with
  | Some v => inr v
  | None =>
      inl (argument_error a
             ("invalid " +:+ type_name (type_ a) +:+ " value: " +:+ str_repr s))
  end.

Fixpoint get_value_list (a : action) (l : list string) : string + list pyval :=
  match l with
  | [] => inr []
  | s :: l' =>
      match get_value a s with
      | inl msg => inl msg
      | inr v =>
          match get_value_list a l' with
          | inl msg => inl msg
          | inr vs => inr (v :: vs)
          end
      end
  end.

(** [_get_values]: the first [--] among the strings is dropped; a single
    string for a one-argument action is converted, anything else yields
    the list of the converted strings. *)
Definition get_values (a : action) (arg_strings : list string) : string + pyval :=
  match remove_first "--" arg_strings, kind a with
  | [s], StoreAction => get_value a s
  | l, _ =>
      match get_value_list a l with
      | inl msg => inl msg
      | inr vs => inr (VList vs)
      end
  end.

(** [error(message)]: the usage and the message go to the standard error
    stream and the process exits with status 2. *)
Definition error {A} (ap : ArgumentParser) (message : string) : M A :=
  exec write_stderr (format_usage ap);
  exec write_stderr (prog ap +:+ ": error: " +:+ message +:+ nl);
  sys_exit 2.

(** [take_action] *)
Definition take_action (ap : ArgumentParser) (st : pstate)
    (t : action * list string * string) : M pstate :=
  let '(a, argument_strings, _) := t in
  let seen' := action_name a :: seen st in
  match get_values a argument_strings with
  | inl msg => error ap msg
  | inr argument_values =>
      match kind a with
      | StoreAction =>
          ret (PState
                 (match dest a with
                  | Some d => setattr (ns st) d argument_values
                  | None => ns st
                  end)
                 seen' (extras st))
      | HelpAction =>
          exec write_stdout (format_help ap);
          sys_exit 0
      end
  end.

Fixpoint take_actions (ap : ArgumentParser) (st : pstate)
    (tuples : list (action * list string * string)) : M pstate :=
  match tuples with
  | [] => ret st
  | t :: tuples' =>
      do st' <- take_action ap st t;
      take_actions ap st' tuples'
  end.

(** The last round of the loop in [consume_optional]: no explicit
    argument, so the action matches its pattern ([A] for one argument,
    nothing for none) against the strings that follow. *)
Definition match_following (a : action) (option_string : string)
    (following : list (string * argclass))
    (action_tuples : list (action * list string * string)) : consumed :=
  match kind a with
  | HelpAction => Consumed (action_tuples ++ [(a, [], option_string)])%list false
  | StoreAction =>
      match following with
      | (v, ClsA) :: _ => Consumed (action_tuples ++ [(a, [v], option_string)])%list true
      | _ => ArgError (argument_error a "expected one argument")
      end
  end.

(** The rounds of that loop with an explicit argument [e]. A single-dash
    action without arguments lets the next character of [e] name another
    single-dash option. *)
Fixpoint match_explicit (ap : ArgumentParser) (a : action) (option_string e : string)
    (following : list (string * argclass))
    (action_tuples : list (action * list string * string)) : consumed :=
  let ignored :=
    ArgError (argument_error a ("ignored explicit argument " +:+ str_repr e)) in
  match kind a with
  | StoreAction => Consumed (action_tuples ++ [(a, [e], option_string)])%list false
  | HelpAction =>
      if second_char_is_dash option_string then ignored
      else
        match e with
        | EmptyString => ignored
        | String c e' =>
            let action_tuples' := (action_tuples ++ [(a, [], option_string)])%list in
            let option_string' := String "-" (String c EmptyString) in
            match assoc option_string' (option_string_actions ap) with
            | None => ignored
            | Some a' =>
                match e' with
                | EmptyString =>
                    match_following a' option_string' following action_tuples'
                | String _ _ =>
                    match_explicit ap a' option_string' e' following action_tuples'
                end
            end
        end
  end.

Definition consume_optional (ap : ArgumentParser) (a : action)
    (option_string : string) (explicit_arg : option string)
    (following : list (string * argclass)) : consumed :=
  match explicit_arg with
  | Some e => match_explicit ap a option_string e following []
  | None => match_following a option_string following []
  end.

Definition add_extra (st : pstate) (s : string) : pstate :=
  PState (ns st) (seen st) (extras st ++ [s])%list.

(** The main loop of [_parse_known_args]. The parser has no positionals:
    a string that is not an option and that no option consumes is an
    extra. *)
Fixpoint parse_items (ap : ArgumentParser) (items : list (string * argclass))
    (st : pstate) : M pstate :=
  match items with
  | [] => ret st
  | (arg, cls) :: rest =>
      match cls with
      | ClsA | ClsDash | ClsO (None, _, _) => parse_items ap rest (add_extra st arg)
      | ClsO (Some a, option_string, explicit_arg) =>
          match consume_optional ap a option_string explicit_arg rest with
          | ArgError msg => error ap msg
          | Consumed tuples took_next =>
              do st' <- take_actions ap st tuples;
              match took_next, rest with
              | true, _ :: rest' => parse_items ap rest' st'
              | _, _ => parse_items ap rest st'
              end
          end
      end
  end.

(** The defaults [parse_known_args] puts into the fresh namespace. *)
Definition initial_namespace (ap : ArgumentParser) : Namespace :=
  List.fold_left
    (fun ns a =>
       match dest a, default_ a with
       | Some d, Some v =>
           match ns_lookup ns d with
           | None => setattr ns d v
           | Some _ => ns
           end
       | _, _ => ns
       end)
    (actions ap) [].

Definition seen_action (st : pstate) (a : action) : bool :=
  List.existsb (String.eqb (action_name a)) (seen st).

(** The loop over [self._actions] after parsing: an action that was not
    seen is reported if it is required; otherwise its default, if it is
    a string still in the namespace, goes through the converter. *)
Fixpoint check_actions (l : list action) (st : pstate) (ns : Namespace)
    (required_actions : list string) : string + Namespace * list string :=
  match l with
  | [] => inr (ns, required_actions)
  | a :: l' =>
      if seen_action st a then check_actions l' st ns required_actions
      else if required a then
        check_actions l' st ns (required_actions ++ [action_name a])%list
      else
        match dest a, default_ a with
        | Some d, Some (VStr s) =>
            match ns_lookup ns d with
            | Some (VStr s') =>
                if String.eqb s s' then
                  match get_value a s with
                  | inl msg => inl msg
                  | inr v => check_actions l' st (setattr ns d v) required_actions
                  end
                else check_actions l' st ns required_actions
            | _ => check_actions l' st ns required_actions
            end
        | _, _ => check_actions l' st ns required_actions
        end
  end.

(** [ap.parse_args(args)] *)
Definition parse_args (ap : ArgumentParser) (args : list string) : M Namespace :=
  match classify ap args with
  | inl msg => error ap msg
  | inr items =>
      do st <- parse_items ap items (PState (initial_namespace ap) [] []);
      match check_actions (actions ap) st (ns st) [] with
      | inl msg => error ap msg
      | inr (ns', (_ :: _) as required_actions) =>
          error ap ("the following arguments are required: " +:+
                    String.concat ", " required_actions)
      | inr (ns', []) =>
          match extras st with
          | (_ :: _) as argv =>
              error ap ("unrecognized arguments: " +:+ String.concat " " argv)
          | [] => ret ns'
          end
      end
  end.

End Parsing.

End Argparse.

Export Argparse.

(** ** String formatting

    The pieces of Python's format mini-language the report uses: a bare
    width (strings pad to the right, numbers to the left) and [10.3f]. *)

Module Fmt.

Fixpoint spaces (n : nat) : string :=
  match n with
  | O => EmptyString
  | S n' => String " " (spaces n')
  end.

(** [format(s, 'w')] for a string: left-aligned in a field of [w]
    characters. *)
Definition ljust (w : nat) (s : string) : string :=
  s +:+ spaces (w - py_len s).

(** [format(n, 'w')] for a number: right-aligned in a field of [w]
    characters. *)
Definition rjust (w : nat) (s : string) : string :=
  spaces (w - py_len s) +:+ s.

(** [x] in thousandths, rounded to nearest with ties to even, for the
    binary value [m * 2^e]. *)
Definition thousandths (m e : Z) : Z :=
  if Z.leb 0 e then m * 1000 * 2 ^ e
  else
    let d := 2 ^ (- e) in
    let q := (m * 1000) / d in
    let r := (m * 1000) mod d in
    if Z.ltb d (2 * r) || (Z.eqb d (2 * r) && Z.odd q) then q + 1 else q.

Definition pad3 (n : Z) : string :=
  let s := pretty n in
  String.concat "" (List.repeat "0" (3 - String.length s)) +:+ s.

Definition fixed3_of_thousandths (n : Z) : string :=
  pretty (n / 1000) +:+ "." +:+ pad3 (n mod 1000).

(** [format(x, '.3f')]: the exact binary value, correctly rounded to three
    decimals. *)
Definition format_fixed3 (x : float) : string :=
  match Prim2SF x with
  | S754_nan => "nan"
  | S754_infinity s => if s then "-inf" else "inf"
  | S754_zero s => (if s then "-" else "") +:+ "0.000"
  | S754_finite s m e =>
      (if s then "-" else "") +:+ fixed3_of_thousandths (thousandths (Zpos m) e)
  end.

(** [format(x, '10.3f')] *)
Definition format_10_3f (x : float) : string := rjust 10 (format_fixed3 x).

End Fmt.
Export Fmt.

(** ** numpy arrays

    An array is its shape and its elements in row-major order; the element
    type is the constructor. A [float32] element is carried by the binary64
    value equal to it. *)

Inductive ndarray : Type :=
| UInt8Array (shape : list nat) (elems : list Z)
| Float32Array (shape : list nat) (elems : list float)
| Float64Array (shape : list nat) (elems : list float).

Definition shape (a : ndarray) : list nat :=
  match a with
  | UInt8Array sh _ | Float32Array sh _ | Float64Array sh _ => sh
  end.

(** The elements as Python scalars. *)
Definition elements (a : ndarray) : list pyval :=
  match a with
  | UInt8Array _ l => List.map VInt l
  | Float32Array _ l | Float64Array _ l => List.map VFloat l
  end.

Definition float_of_uint8 (z : Z) : float := PrimFloat.of_uint63 (Uint63.of_Z z).

(** [a.astype('float')]: the binary64 copy, as its shape and elements. *)
Definition astype_float (a : ndarray) : list nat * list float :=
  match a with
  | UInt8Array sh l => (sh, List.map float_of_uint8 l)
  | Float32Array sh l => (sh, l)
  | Float64Array sh l => (sh, l)
  end.

(** [a / x] for a binary64 array [a] and a Python float [x]: element-wise
    binary64 division. *)
Definition true_divide (a : list nat * list float) (x : float) : ndarray :=
  Float64Array (fst a) (List.map (fun v => PrimFloat.div v x) (snd a)).

(** The sample at index [k] along the first axis. *)
Definition sample_size (sh : list nat) : nat :=
  List.fold_right Nat.mul 1%nat (List.tl sh).

Definition sample (a : ndarray) (k : nat) : list pyval :=
  let n := sample_size (shape a) in
  List.firstn n (List.skipn (k * n) (elements a)).

(** ** The module [trainutils] *)

(** The dataset loader of [visutils]: the preprocessors it is built with. *)
Inductive preprocessor : Type :=
| AspectAwarePreprocessor (width height : pyval)
| ImageToArrayPreprocessor.

(** The [modelparams] dictionary [write_training_report] reads: the values
    under ['imagesize'], ['optimizer'] (as the items of its [get_config()],
    in iteration order), ['loss_function'], ['metrics'], ['elapsed_time']
    (seconds) and ['model_structure'] (as the lines its [summary] hands to
    [print_fn]). *)
Record ModelParams : Type := {
  imagesize : pyval;
  optimizer_config : list (string * pyval);
  loss_function : pyval;
  metrics : pyval;
  elapsed_time : float;
  model_summary : list string
}.

Definition description_lines : list string :=
  [ "";
    "Convolutional Neural Network trainer for a specific architecture using";
    "TensorFlow as the backend engine and OpenCV for vision utilities.";
    "                                        -msantosh@axtellabs.";
    "The supported architectures are:";
    "    - MiniVGG";
    "    - LeNet";
    "    - AlexNet";
    "    - KarpathyNet";
    "    - VGG16 (fixed size input {224, 224, 3} and 1000 classes.)";
    "";
    "All architectures (until now) can be specified their input shapes";
    "and their output dimension (number of classes), except for the VGG16.";
    "" ].

Definition description : string := String.concat nl description_lines.

(** The architectures the description announces as supported. *)
Definition described_architectures : list string :=
  ["MiniVGG"; "LeNet"; "AlexNet"; "KarpathyNet"; "VGG16"].

(** The parser [get_argv] builds, one [add_argument] per option. The float
    literal [0.001] denotes the binary64 value nearest to it. *)
Definition argument_parser : ArgumentParser :=
  let ap := new_parser "python(3.6) trainer/main.py" description in
  let ap := add_argument ap ["-a"; "--architecture"] true VNone TStr in
  let ap := add_argument ap ["-d"; "--dataset"] true VNone TStr in
  let ap := add_argument ap ["-n"; "--normalize"] false (VBool true) TBool in
  let ap := add_argument ap ["-mn"; "--model-name"] true VNone TStr in
  let ap := add_argument ap ["-g"; "--grayscale"] false (VBool false) TBool in
  let ap := add_argument ap ["-i"; "--image-size"] false (VInt 64) TInt in
  let ap := add_argument ap ["-o"; "--optimizer"] false (VStr "SGD") TStr in
  let ap := add_argument ap ["-etha"; "--etha"] false (VFloat 0x1.0624dd2f1a9fcp-10%float) TFloat in
  let ap := add_argument ap ["-e"; "--epochs"] false (VInt 30) TInt in
  let ap := add_argument ap ["-b"; "--batch-size"] false (VInt 32) TInt in
  ap.

Section Trainutils.

(** What the module takes from outside: the builtins [int(s)] and
    [float(s)] ([None] for a [ValueError]), [repr] of a string and of a
    float, argparse's help formatter, and the dataset loader
    [SimpleDatasetLoader(preprocessors, grayscale).load(imagepaths,
    verbose)]. *)
Variable py_int : string -> option Z.
Variable py_float : string -> option float.
Variable str_repr : string -> string.
Variable float_repr : float -> string.
Variable format_usage : ArgumentParser -> string.
Variable format_help : ArgumentParser -> string.
Variable SimpleDatasetLoader_load :
  list preprocessor -> pyval -> list string -> Z -> M (ndarray * list string).

(** [ap.parse_args()] reads [sys.argv[1:]]. *)
Definition get_argv : M Namespace :=
  let ap := argument_parser in
  do args <- (fun w => (Return (List.tl (sys_argv w)), w));
  parse_args py_int py_float str_repr format_usage format_help ap args.

(** [load_images_and_labels(argv, imagepaths, normalize=True)]; an
    omitted [normalize] is [None] here. *)
Definition load_images_and_labels (argv : Namespace) (imagepaths : list string)
    (normalize : option pyval) : M (ndarray * list string) :=
  let normalize := match normalize with Some v => v | None => VBool true end in
  do imagesize <- lift (getattr argv "image_size");
  let aap := AspectAwarePreprocessor imagesize imagesize in
  let iap := ImageToArrayPreprocessor in
  exec print "[INFO] loading images...";
  do grayscale <- lift (getattr argv "grayscale");
  do '(data, labels) <- SimpleDatasetLoader_load [aap; iap] grayscale imagepaths 500;
  if py_truthy normalize then
    exec print "[INFO] normalizing data...";
    let data := true_divide (astype_float data) 255%float in
    ret (data, labels)
  else ret (data, labels).

(** [repr(v)] and [str(v)] *)
Fixpoint py_repr (v : pyval) : string :=
  match v with
  | VNone => "None"
  | VBool b => if b then "True" else "False"
  | VInt z => pretty z
  | VFloat f => float_repr f
  | VStr s => str_repr s
  | VList xs => "[" +:+ String.concat ", " (List.map py_repr xs) +:+ "]"
  end.

Definition py_str (v : pyval) : string :=
  match v with
  | VStr s => s
  | _ => py_repr v
  end.

(** [format(v, '10')] *)
Definition py_format10 (v : pyval) : outcome string :=
  let unsupported cls :=
    Raise (PyExn "TypeError"
             ("unsupported format string passed to " +:+ cls +:+ ".__format__")) in
  match v with
  | VNone => unsupported "NoneType"
  | VBool b => Return (rjust 10 (if b then "1" else "0"))
  | VInt z => Return (rjust 10 (pretty z))
  | VFloat f => Return (rjust 10 (float_repr f))
  | VStr s => Return (ljust 10 s)
  | VList _ => unsupported "list"
  end.

(** [argv._get_kwargs()]: the items of the instance dictionary, in
    insertion order (before Python 3.9 they come sorted by name). *)
Definition get_kwargs (argv : Namespace) : list (string * pyval) := argv.

Definition report_path (model_name : pyval) : string :=
  "output/reports/" +:+ py_str model_name +:+ "_report.txt".

Definition write_training_report (argv : Namespace) (modelparams : ModelParams)
    (report : string) : M unit :=
  let imagesize := imagesize modelparams in
  do model_name <- lift (getattr argv "model_name");
  do f <- open_w (report_path model_name);
  do model_name <- lift (getattr argv "model_name");
  exec file_write f ("REPORT FOR MODEL: " +:+ py_str model_name +:+ nl +:+ nl);
  do now <- datetime_now;
  exec file_write f ("DATETIME: " +:+ now +:+ nl +:+ nl);
  exec file_write f
    ("             ========   PROGRAM ARGUMENTS   ========" +:+ nl +:+ nl);
  exec for_each (get_kwargs argv) (fun '(arg, val) =>
    file_write f (ljust 12 (arg +:+ ":") +:+ "    " +:+ py_str val +:+ nl));
  exec file_write f (nl +:+ nl);
  exec file_write f
    ("             ======== MODEL HYPERPARAMETERS ========" +:+ nl +:+ nl);
  exec file_write f
    ("image size:" +:+ tab +:+ py_str imagesize +:+ " * " +:+ py_str imagesize +:+ nl);
  do epochs <- lift (attempt v <- getattr argv "epochs"; py_format10 v);
  exec file_write f ("epochs:" +:+ tab +:+ epochs +:+ nl);
  do optimizer <- lift (attempt v <- getattr argv "optimizer"; py_format10 v);
  exec file_write f ("optimizer:" +:+ tab +:+ optimizer +:+ nl +:+ nl);
  let optconfig := optimizer_config modelparams in
  exec for_each optconfig (fun '(ft, val) =>
    do val <- lift (py_format10 val);
    file_write f (tab +:+ tab +:+ tab +:+ "* " +:+ ljust 10 ft +:+ ": " +:+ tab +:+ val +:+ nl));
  do loss <- lift (py_format10 (loss_function modelparams));
  exec file_write f (nl +:+ "loss function:" +:+ tab +:+ loss +:+ nl);
  exec file_write f
    ("metrics:" +:+ tab +:+ ljust 10 (py_str (metrics modelparams)) +:+ nl +:+ nl +:+ nl);
  exec file_write f
    ("             ========    ELAPSED TRAINING TIME ========" +:+ nl +:+ nl);
  exec file_write f
    ("elapsed training time:" +:+ tab +:+
     format_10_3f (PrimFloat.div (elapsed_time modelparams) 60%float) +:+
     " minutes" +:+ nl +:+ nl +:+ nl);
  exec file_write f
    ("             ========     MODEL SUMMARY  ========" +:+ nl +:+ nl);
  exec for_each (model_summary modelparams) (fun x => file_write f (x +:+ nl));
  exec file_write f (nl +:+ nl);
  exec file_write f
    ("             ======== CLASSIFICATION REPORT ========" +:+ nl +:+ nl);
  exec file_write f report;
  file_write f (nl +:+ nl).

End Trainutils.

(** ** Vocabulary of the statements *)

(** ASCII lower-casing, to say that two names differ only in letter case. *)
Definition lower_ascii (c : ascii) : ascii :=
  let n := nat_of_ascii c in
  if (65 <=? n)%nat && (n <=? 90)%nat then ascii_of_nat (n + 32) else c.

Fixpoint lower (s : string) : string :=
  match s with
  | EmptyString => EmptyString
  | String c s' => String (lower_ascii c) (lower s')
  end.

Definition differs_only_in_case (s t : string) : Prop :=
  lower s = lower t /\ s <> t.

(** The namespace [get_argv] returns for the command line
    [-a architecture -d dataset -mn model_name]. *)
Definition default_namespace (architecture dataset model_name : string) : Namespace :=
  [ ("architecture", VStr architecture);
    ("dataset", VStr dataset);
    ("normalize", VBool true);
    ("model_name", VStr model_name);
    ("grayscale", VBool false);
    ("image_size", VInt 64);
    ("optimizer", VStr "SGD");
    ("etha", VFloat 0x1.0624dd2f1a9fcp-10%float);
    ("epochs", VInt 30);
    ("batch_size", VInt 32) ].

(** A pixel intensity of 255, as an integer or as a float element. *)
Definition is_255 (v : pyval) : Prop := v = VInt 255 \/ v = VFloat 255%float.

(** The binary64 value of an array element, and the element divided by
    255.0. *)
Definition scalar_float (v : pyval) : float :=
  match v with
  | VInt z => float_of_uint8 z
  | VFloat f => f
  | _ => PrimFloat.nan
  end.

Definition normalized_intensity (v : pyval) : pyval :=
  VFloat (PrimFloat.div (scalar_float v) 255%float).

(** A loader that finds two 2 x 2 single-channel images, the first all
    white, whatever it is asked for. *)
Definition sample_loader (preprocessors : list preprocessor) (grayscale : pyval)
    (imagepaths : list string) (verbose : Z) : M (ndarray * list string) :=
  ret (UInt8Array [2; 2; 2; 1]%nat [255; 255; 255; 255; 0; 17; 128; 255],
       ["cats"; "dogs"]).

Definition sample_world (command_line : list string) : world :=
  World command_line EmptyString EmptyString "2018-06-01 12:00:00.000000"
        (fun _ => None) ∅.

(** The action a command-line string selects, if it is read as an
    option of the parser. *)
Definition selected_action (ap : ArgumentParser) (arg : string) : option action :=
  match parse_optional ap arg with
  | inr (Some (Some a, _, _)) => Some a
  | _ => None
  end.

(** [arg] is read as the option stored under [d] (by its short or long
    flag, an abbreviation, or with an attached value). *)
Definition names_option (ap : ArgumentParser) (d : string) (arg : string) : bool :=
  match selected_action ap arg with
  | Some a =>
      match dest a with
      | Some d' => String.eqb d' d
      | None => false
      end
  | None => false
  end.

(** The command line supplies the option stored under [d]. *)
Definition supplied (ap : ArgumentParser) (d : string) (args : list string) : bool :=
  List.existsb (names_option ap d) args.

Definition asks_help (ap : ArgumentParser) (arg : string) : bool :=
  match selected_action ap arg with
  | Some a => match kind a with HelpAction => true | StoreAction => false end
  | None => false
  end.

Definition help_requested (ap : ArgumentParser) (args : list string) : bool :=
  List.existsb (asks_help ap) args.

(** [s] is read as an argument (the letter [A] of the pattern), so that an
    option before it takes it as its value. *)
Definition is_argument (ap : ArgumentParser) (s : string) : bool :=
  negb (String.eqb s "--") &&
  match parse_optional ap s with
  | inr None => true
  | _ => false
  end.

(** The state after a store action put [v] under its destination. *)
Definition after_store (st : pstate) (a : action) (v : pyval) : pstate :=
  PState (match dest a with
          | Some d => setattr (ns st) d v
          | None => ns st
          end)
         (action_name a :: seen st) (extras st).

(** The world after [error(message)] and after the help action. *)
Definition error_world (usage prog message : string) (w : world) : world :=
  World (sys_argv w) (stdout w)
        ((stderr w +:+ usage) +:+ (prog +:+ ": error: " +:+ message +:+ nl))
        (clock w) (open_error w) (files w).

Definition help_world (help : string) (w : world) : world :=
  World (sys_argv w) (stdout w +:+ help) (stderr w)
        (clock w) (open_error w) (files w).

(** Stand-ins for the builtins, to run the definitions: decimal [int(s)]
    with an optional minus sign, [float(s)] on the same strings, [repr]
    in single quotes, and a fixed usage and help text. *)
Fixpoint decimal_digits (s : string) (acc : Z) : option Z :=
  match s with
  | EmptyString => Some acc
  | String c s' =>
      if between 48 57 (byte_of c)
      then decimal_digits s' (acc * 10 + byte_of c - 48)
      else None
  end.

Definition ascii_int (s : string) : option Z :=
  match s with
  | EmptyString => None
  | String "-" r => if String.eqb r "" then None else option_map Z.opp (decimal_digits r 0)
  | _ => decimal_digits s 0
  end.

Definition ascii_float (s : string) : option float :=
  option_map (fun z => PrimFloat.of_uint63 (Uint63.of_Z z))
    (match ascii_int s with Some z => if Z.leb 0 z then Some z else None | None => None end).

Definition quoted (s : string) : string := "'" +:+ s +:+ "'".

Definition sample_usage (ap : ArgumentParser) : string :=
  "usage: " +:+ prog ap +:+ " [-h] ..." +:+ nl.

Definition sample_help (ap : ArgumentParser) : string :=
  sample_usage ap +:+ Argparse.description ap.



Section ReportText.

Variable str_repr : string -> string.
Variable float_repr : float -> string.














End ReportText.

(** The world with the file [f] holding [content]. *)
Definition set_file (w : world) (f content : string) : world :=
  World (sys_argv w) (stdout w) (stderr w) (clock w) (open_error w)
        (<[f := content]> (files w)).

(** Model parameters of a short training run, two minutes long. *)
Definition sample_modelparams : ModelParams :=
  {| imagesize := VInt 64;
     optimizer_config :=
       [("name", VStr "SGD"); ("learning_rate", VFloat 0x1.0624dd2f1a9fcp-10%float);
        ("nesterov", VBool false)];
     loss_function := VStr "categorical_crossentropy";
     metrics := VList [VStr "accuracy"];
     elapsed_time := 120%float;
     model_summary := ["Model: lenet"; "Total params: 1,000"] |}.

Definition sample_float_repr (f : float) : string :=
  if PrimFloat.eqb f 0x1.0624dd2f1a9fcp-10%float then "0.001" else "0.0".

(** The attributes of the namespace [get_argv] returns, in the order of
    the [add_argument] calls. *)
Definition argument_names : list string :=
  [ "architecture"; "dataset"; "normalize"; "model_name"; "grayscale";
    "image_size"; "optimizer"; "etha"; "epochs"; "batch_size" ].

(** A command-line string no option can take: the separator [--], or a
    string that looks like an option and matches no flag of the parser. *)
Definition unrecognized (ap : ArgumentParser) (arg : string) : bool :=
  String.eqb arg "--" ||
  match parse_optional ap arg with
  | inr (Some (None, _, _)) => true
  | _ => false
  end.

(** A string that abbreviates more than one flag. *)
Definition ambiguous (ap : ArgumentParser) (arg : string) : bool :=
  match parse_optional ap arg with
  | inl _ => true
  | inr _ => false
  end.


(** A unit-interval test on binary64 values, and the intensities a
    [uint8] array can hold. *)
Definition in_unit_interval (f : float) : bool :=
  PrimFloat.leb 0%float f && PrimFloat.leb f 1%float.

Definition is_uint8 (z : Z) : Prop := 0 <= z <= 255.

(** The letters of the pattern that no option takes as its value: the
    separator and the unknown options. *)
Definition never_consumed (cls : argclass) : Prop :=
  match cls with
  | ClsDash | ClsO (None, _, _) => True
  | _ => False
  end.


(** The 256 intensities of an 8-bit pixel. *)
Definition uint8_range : list Z := List.map Z.of_nat (List.seq 0 256).

(** The value a command-line string attaches to the option it names, as
    in [--flag=value] or [-fvalue]. *)
Definition attached_value (ap : ArgumentParser) (arg : string) : option string :=
  match parse_optional ap arg with
  | inr (Some (Some _, _, Some e)) => Some e
  | _ => None
  end.

(** A value that reaches the converter as a non-empty string: not the
    empty string, and not [--], which [_get_values] drops. *)
Definition proper_value (s : string) : bool :=
  negb (String.eqb s "") && negb (String.eqb s "--").

(** No string of the command line is empty, and no option has an empty
    value or [--] attached to it. *)
Definition plain_values (ap : ArgumentParser) (args : list string) : bool :=
  List.forallb
    (fun arg =>
       negb (String.eqb arg "") &&
       match attached_value ap arg with
       | Some e => proper_value e
       | None => true
       end)
    args.

(** The flags of the boolean options, with their destinations. *)
Definition boolean_flags : list (string * string) :=
  [ ("-n", "normalize"); ("--normalize", "normalize");
    ("-g", "grayscale"); ("--grayscale", "grayscale") ].

(** ** [build_architecture]: the dispatch *)

Lemma py_eq_str_spec (v : pyval) (s : string) :
  py_eq_str v s = true <-> v = VStr s.
Proof.
  destruct v; simpl; try (split; [discriminate | intros H; discriminate H]).
  rewrite String.eqb_eq. split; [intros -> | intros [= ->]]; reflexivity.
Qed.

Lemma py_eq_str_false (v : pyval) (s : string) :
  v <> VStr s -> py_eq_str v s = false.
Proof.
  intros Hne. destruct (py_eq_str v s) eqn:E; [|reflexivity].
  apply py_eq_str_spec in E. contradiction.
Qed.

(** The local [model] is bound exactly when the name is one of the four
    literals of the chain. *)
Lemma build_architecture_local_bound (v : pyval) (w h d c : Z) (m : model) :
  build_architecture_local v w h d c = Some m ->
  exists name, In name dispatched_names /\ v = VStr name.
Proof.
  unfold build_architecture_local, dispatched_names.
  destruct (py_eq_str v "lenet") eqn:E1;
    [apply py_eq_str_spec in E1; intros _; exists "lenet"; simpl; auto|].
  destruct (py_eq_str v "karpathynet") eqn:E2;
    [apply py_eq_str_spec in E2; intros _; exists "karpathynet"; simpl; auto|].
  destruct (py_eq_str v "minivgg") eqn:E3;
    [apply py_eq_str_spec in E3; intros _; exists "minivgg"; simpl; auto|].
  destruct (py_eq_str v "vgg16") eqn:E4;
    [apply py_eq_str_spec in E4; intros _; exists "vgg16"; simpl; auto 6|].
  discriminate.
Qed.

Lemma build_architecture_local_unbound (v : pyval) (w h d c : Z) :
  (forall name, In name dispatched_names -> v <> VStr name) ->
  build_architecture_local v w h d c = None.
Proof.
  intros Hno.
  destruct (build_architecture_local v w h d c) as [m|] eqn:E; [|reflexivity].
  apply build_architecture_local_bound in E as (name & Hin & ->).
  exfalso. exact (Hno name Hin eq_refl).
Qed.

Lemma build_architecture_local_dispatched (name : string) (w h d c : Z) :
  In name dispatched_names ->
  exists m, build_architecture_local (VStr name) w h d c = Some m.
Proof.
  unfold dispatched_names. simpl.
  intros [<-|[<-|[<-|[<-|[]]]]]; eexists; reflexivity.
Qed.

(** [build_architecture] returns a model exactly on the four dispatched
    names. *)
Lemma build_architecture_returns_iff (argv : Namespace) (name : string) (w h d c : Z) :
  getattr argv "architecture" = Return (VStr name) ->
  (exists m, build_architecture argv w h d c = Return m) <-> In name dispatched_names.
Proof.
  intros Hattr. unfold build_architecture. rewrite Hattr. simpl. split.
  - intros [m Hm].
    destruct (build_architecture_local (VStr name) w h d c) as [m'|] eqn:E;
      [|discriminate].
    apply build_architecture_local_bound in E as (n & Hin & [= ->]). exact Hin.
  - intros Hin.
    destruct (build_architecture_local_dispatched name w h d c Hin) as [m ->].
    exists m. reflexivity.
Qed.

Lemma build_architecture_unknown (argv : Namespace) (name : string) (w h d c : Z) :
  getattr argv "architecture" = Return (VStr name) ->
  ~ In name dispatched_names ->
  build_architecture argv w h d c = Raise unbound_model.
Proof.
  intros Hattr Hno. unfold build_architecture. rewrite Hattr. simpl.
  rewrite build_architecture_local_unbound; [reflexivity|].
  intros n Hin [= ->]. exact (Hno Hin).
Qed.

(** C1. For an architecture name outside the enumeration the
    specification asks for an InvalidArchitecture error. On the name
    ["resnet"] the chain of comparisons binds nothing and [return model]
    raises UnboundLocalError, which is not that error. *)
Theorem build_architecture_resnet_raises_unbound_local (w h d c : Z) :
  ~ In "resnet" dispatched_names /\
  build_architecture (default_namespace "resnet" "data" "m") w h d c
    = Raise unbound_model /\
  exn_class unbound_model = "UnboundLocalError" /\
  exn_class unbound_model <> "InvalidArchitecture".
Proof.
  split; [|split; [|split]].
  - unfold dispatched_names. simpl. intuition discriminate.
  - reflexivity.
  - reflexivity.
  - discriminate.
Qed.

(** C2. The description announces five supported architectures, AlexNet
    among them, but the chain dispatches on four names: on ["alexnet"] no
    model is built, and the names on which one is returned are exactly the
    four of [dispatched_names]. *)
Theorem build_architecture_alexnet_builds_nothing (w h d c : Z) :
  List.length described_architectures = 5%nat /\
  In "AlexNet" described_architectures /\
  build_architecture (default_namespace "alexnet" "data" "m") w h d c
    = Raise unbound_model /\
  List.length dispatched_names = 4%nat /\
  List.NoDup dispatched_names /\
  (forall name,
      (exists m, build_architecture (default_namespace name "data" "m") w h d c = Return m)
      <-> In name dispatched_names).
Proof.
  split; [reflexivity|]. split; [simpl; auto|]. split; [reflexivity|].
  split; [reflexivity|]. split.
  - unfold dispatched_names.
    repeat (apply List.NoDup_cons; [simpl; intuition discriminate|]).
    apply List.NoDup_nil.
  - intros name. apply build_architecture_returns_iff. reflexivity.
Qed.

(** C4. With architecture ['vgg16'] the supplied width, height, depth and
    class count are ignored: whatever they are, the model built is the
    fixed [VGG16.build()], declared at 224 x 224 x 3 inputs and 1000
    classes. *)
Theorem build_architecture_vgg16_fixed (argv : Namespace) (w h d c : Z) :
  getattr argv "architecture" = Return (VStr "vgg16") ->
  build_architecture argv w h d c = Return VGG16_build /\
  (forall w' h' d' c',
      build_architecture argv w' h' d' c' = build_architecture argv w h d c) /\
  input_shape VGG16_build = (224, 224, 3) /\
  output_classes VGG16_build = 1000.
Proof.
  intros Hattr. unfold build_architecture. rewrite Hattr. simpl.
  repeat split; reflexivity.
Qed.

Lemma build_architecture_vgg16_fixed_witness :
  getattr (default_namespace "vgg16" "data" "m") "architecture" = Return (VStr "vgg16") /\
  build_architecture (default_namespace "vgg16" "data" "m") 32 32 1 10 = Return VGG16_build.
Proof.
  split; [reflexivity|].
  apply (build_architecture_vgg16_fixed (default_namespace "vgg16" "data" "m") 32 32 1 10).
  reflexivity.
Defined.

Lemma lower_dispatched (name : string) :
  In name dispatched_names -> lower name = name.
Proof.
  unfold dispatched_names. simpl.
  intros [<-|[<-|[<-|[<-|[]]]]]; reflexivity.
Qed.

(** C10. The comparison is exact: a name that differs from a supported
    one only in letter case takes none of the four branches, and no model
    is built. *)
Theorem build_architecture_case_sensitive
    (argv : Namespace) (name supported : string) (w h d c : Z) :
  getattr argv "architecture" = Return (VStr name) ->
  In supported dispatched_names ->
  differs_only_in_case name supported ->
  build_architecture_local (VStr name) w h d c = None /\
  build_architecture argv w h d c = Raise unbound_model /\
  ~ exists m, build_architecture argv w h d c = Return m.
Proof.
  intros Hattr Hsup [Hlow Hne].
  assert (Hnot : ~ In name dispatched_names).
  { intros Hin. apply Hne.
    rewrite <- (lower_dispatched name Hin), <- (lower_dispatched supported Hsup).
    exact Hlow. }
  split; [|split].
  - apply build_architecture_local_unbound. intros n Hin [= ->]. exact (Hnot Hin).
  - apply build_architecture_unknown with (name := name); assumption.
  - intros [m Hm].
    rewrite (build_architecture_unknown argv name w h d c Hattr Hnot) in Hm.
    discriminate.
Qed.

Lemma build_architecture_case_sensitive_witness :
  build_architecture (default_namespace "LeNet" "data" "m") 28 28 1 10 = Raise unbound_model /\
  build_architecture (default_namespace "VGG16" "data" "m") 28 28 1 10 = Raise unbound_model.
Proof.
  split.
  - apply (build_architecture_case_sensitive
             (default_namespace "LeNet" "data" "m") "LeNet" "lenet" 28 28 1 10).
    + reflexivity.
    + simpl; auto.
    + split; [reflexivity | discriminate].
  - apply (build_architecture_case_sensitive
             (default_namespace "VGG16" "data" "m") "VGG16" "vgg16" 28 28 1 10).
    + reflexivity.
    + simpl; auto 6.
    + split; [reflexivity | discriminate].
Defined.


(** ** [load_images_and_labels]: normalisation *)

Lemma ns_lookup_setattr_ne (ns : Namespace) (k k' : string) (v : pyval) :
  k <> k' -> ns_lookup (setattr ns k v) k' = ns_lookup ns k'.
Proof.
  intros Hne. induction ns as [|[k0 x] ns IH]; simpl.
  - destruct (String.eqb k k') eqn:E; [apply String.eqb_eq in E; contradiction|reflexivity].
  - destruct (String.eqb k0 k) eqn:E; simpl.
    + apply String.eqb_eq in E. subst k0.
      destruct (String.eqb k k') eqn:E'; [apply String.eqb_eq in E'; contradiction|reflexivity].
    + rewrite IH. reflexivity.
Qed.

Lemma ns_lookup_setattr_eq (ns : Namespace) (k : string) (v : pyval) :
  ns_lookup (setattr ns k v) k = Some v.
Proof.
  induction ns as [|[k0 x] ns IH]; simpl.
  - rewrite String.eqb_refl. reflexivity.
  - destruct (String.eqb k0 k) eqn:E; simpl; rewrite E; [reflexivity|exact IH].
Qed.


Lemma elements_true_divide (data : ndarray) :
  elements (true_divide (astype_float data) 255%float)
  = List.map normalized_intensity (elements data).
Proof.
  destruct data as [sh l|sh l|sh l]; simpl; rewrite ?List.map_map; reflexivity.
Qed.

Lemma shape_true_divide (data : ndarray) :
  shape (true_divide (astype_float data) 255%float) = shape data.
Proof. destruct data; reflexivity. Qed.

Lemma sample_true_divide (data : ndarray) (k : nat) :
  sample (true_divide (astype_float data) 255%float) k
  = List.map normalized_intensity (sample data k).
Proof.
  unfold sample. rewrite shape_true_divide, elements_true_divide.
  rewrite List.skipn_map, List.firstn_map. reflexivity.
Qed.

Lemma normalized_intensity_255 (v : pyval) :
  is_255 v -> normalized_intensity v = VFloat 1%float.
Proof. intros [-> | ->]; reflexivity. Qed.

Section LoaderFacts.

Variable SimpleDatasetLoader_load :
  list preprocessor -> pyval -> list string -> Z -> M (ndarray * list string).

Let load := load_images_and_labels SimpleDatasetLoader_load.

(** C5. When the loader hands back [data], a true [normalize] returns
    every intensity divided by 255.0 (so a sample whose pixels are all 255
    comes out all 1.0) and a false one returns [data] untouched. *)
Theorem load_images_and_labels_normalizes
    (argv : Namespace) (imagepaths : list string) (normalize : option pyval)
    (image_size grayscale : pyval) (data : ndarray) (labels : list string)
    (w w1 : world) :
  getattr argv "image_size" = Return image_size ->
  getattr argv "grayscale" = Return grayscale ->
  SimpleDatasetLoader_load
    [AspectAwarePreprocessor image_size image_size; ImageToArrayPreprocessor]
    grayscale imagepaths 500 (snd (print "[INFO] loading images..." w))
    = (Return (data, labels), w1) ->
  exists data' w2,
    load argv imagepaths normalize w = (Return (data', labels), w2) /\
    (py_truthy (match normalize with Some v => v | None => VBool true end) = true ->
       shape data' = shape data /\
       elements data' = List.map normalized_intensity (elements data) /\
       forall k, Forall is_255 (sample data k) ->
                 Forall (eq (VFloat 1%float)) (sample data' k)) /\
    (py_truthy (match normalize with Some v => v | None => VBool true end) = false ->
       data' = data /\ w2 = w1 /\
       forall k, Forall is_255 (sample data k) -> Forall is_255 (sample data' k)).
Proof.
  intros Hsize Hgray Hload.
  unfold load, load_images_and_labels, bind, lift.
  rewrite Hsize. simpl in Hload. simpl. rewrite Hgray. rewrite Hload.
  destruct (py_truthy _) eqn:Hflag; simpl.
  - eexists _, _. split; [reflexivity|]. split; [|discriminate].
    intros _. split; [apply shape_true_divide|].
    split; [apply elements_true_divide|].
    intros k Hall. rewrite sample_true_divide.
    apply List.Forall_map. eapply List.Forall_impl; [|exact Hall].
    intros v Hv. symmetry. apply normalized_intensity_255. exact Hv.
  - eexists _, _. split; [reflexivity|]. split; [discriminate|].
    intros _. repeat split. intros k Hall. exact Hall.
Qed.


End LoaderFacts.

Lemma load_images_and_labels_normalizes_witness :
  exists data' w2,
    load_images_and_labels sample_loader (default_namespace "lenet" "data" "m")
      ["data/cats/1.png"; "data/dogs/2.png"] None (sample_world ["main.py"])
    = (Return (data', ["cats"; "dogs"]), w2) /\
    Forall (eq (VFloat 1%float)) (sample data' 0).
Proof.
  destruct (load_images_and_labels_normalizes sample_loader
              (default_namespace "lenet" "data" "m")
              ["data/cats/1.png"; "data/dogs/2.png"] None
              (VInt 64) (VBool false)
              (UInt8Array [2; 2; 2; 1]%nat [255; 255; 255; 255; 0; 17; 128; 255])
              ["cats"; "dogs"] (sample_world ["main.py"])
              (snd (print "[INFO] loading images..." (sample_world ["main.py"])))
              eq_refl eq_refl eq_refl)
    as (data' & w2 & Hrun & Hnorm & _).
  exists data', w2. split; [exact Hrun|].
  apply (proj2 (proj2 (Hnorm eq_refl)) 0%nat).
  repeat constructor.
Defined.

(** ** [argparse]: how a run of the parser ends *)

Lemma assoc_in_actions (ap : ArgumentParser) (k : string) (a : action) :
  assoc k (option_string_actions ap) = Some a -> In a (actions ap).
Proof.
  unfold option_string_actions.
  induction (actions ap) as [|a0 l IH]; simpl; [discriminate|].
  assert (Hgen : forall l1 l2,
             assoc k (List.map (fun s => (s, a0)) l1 ++ l2)%list = Some a ->
             a0 = a \/ assoc k l2 = Some a).
  { induction l1 as [|s l1 IH1]; simpl; intros l2 H; [right; exact H|].
    destruct (String.eqb s k); [left; congruence|]. apply IH1. exact H. }
  intros H. apply Hgen in H as [H|H]; [left; exact H|right; apply IH; exact H].
Qed.

Lemma flat_map_option_strings_in (ap : ArgumentParser)
    (f : string * action -> list option_tuple) (a : action) (os : string)
    (ex : option string) :
  (forall p, In (Some a, os, ex) (f p) -> snd p = a) ->
  In (Some a, os, ex) (List.flat_map f (option_string_actions ap)) ->
  In a (actions ap).
Proof.
  intros Hf Hin. apply List.in_flat_map in Hin as ([s a'] & Hp & Hin).
  apply Hf in Hin. simpl in Hin. subst a'.
  unfold option_string_actions in Hp.
  apply List.in_flat_map in Hp as (a0 & Ha0 & Hp).
  apply List.in_map_iff in Hp as (s' & [= _ ->] & _). exact Ha0.
Qed.

Lemma get_option_tuples_in (ap : ArgumentParser) (arg : string) (a : action)
    (os : string) (ex : option string) :
  In (Some a, os, ex) (get_option_tuples ap arg) -> In a (actions ap).
Proof.
  unfold get_option_tuples.
  destruct (second_char_is_dash arg).
  - destruct (match split_eq arg with Some (l, r) => (l, Some r) | None => (arg, None) end)
      as [option_prefix explicit_arg].
    apply flat_map_option_strings_in.
    intros [s a'] Hin. simpl.
    destruct (String.prefix option_prefix s); simpl in Hin;
      [destruct Hin as [[= -> _ _]|[]]; reflexivity|destruct Hin].
  - apply flat_map_option_strings_in.
    intros [s a'] Hin. simpl.
    destruct (String.eqb s _); simpl in Hin;
      [destruct Hin as [[= -> _ _]|[]]; reflexivity|].
    destruct (String.prefix arg s); simpl in Hin;
      [destruct Hin as [[= -> _ _]|[]]; reflexivity|destruct Hin].
Qed.

Lemma selected_action_in (ap : ArgumentParser) (arg : string) (a : action)
    (os : string) (ex : option string) :
  parse_optional ap arg = inr (Some (Some a, os, ex)) -> In a (actions ap).
Proof.
  unfold parse_optional.
  destruct arg as [|c r]; [discriminate|].
  destruct (negb (Ascii.eqb c "-")); [discriminate|].
  destruct (assoc (String c r) (option_string_actions ap)) as [a0|] eqn:E0.
  { intros [= -> _ _]. eapply assoc_in_actions; exact E0. }
  destruct (String.length (String c r) =? 1)%nat; [discriminate|].
  destruct (split_eq (String c r)) as [[o e]|] eqn:Es.
  - destruct (assoc o (option_string_actions ap)) as [a1|] eqn:E1.
    { intros [= -> _ _]. eapply assoc_in_actions; exact E1. }
    destruct (get_option_tuples ap (String c r)) as [|t [|t' l]] eqn:Et.
    + destruct (_ && _); [discriminate|]. destruct (contains_char _ _); discriminate.
    + intros [= ->]. eapply get_option_tuples_in. rewrite Et. left. reflexivity.
    + discriminate.
  - destruct (get_option_tuples ap (String c r)) as [|t [|t' l]] eqn:Et.
    + destruct (_ && _); [discriminate|]. destruct (contains_char _ _); discriminate.
    + intros [= ->]. eapply get_option_tuples_in. rewrite Et. left. reflexivity.
    + discriminate.
Qed.

(** What [classify] records for an option is what [parse_optional] says
    of a string of the command line. *)
Lemma classify_items (ap : ArgumentParser) (args : list string)
    (items : list (string * argclass)) :
  classify ap args = inr items ->
  forall arg t, In (arg, ClsO t) items ->
                In arg args /\ parse_optional ap arg = inr (Some t).
Proof.
  revert items. induction args as [|s rest IH]; simpl; intros items H arg t Hin.
  - injection H as <-. destruct Hin.
  - destruct (String.eqb s "--").
    + injection H as <-. destruct Hin as [[=]|Hin].
      apply List.in_map_iff in Hin as (x & [=] & _).
    + destruct (parse_optional ap s) as [msg|cls] eqn:Ep; [discriminate|].
      destruct (classify ap rest) as [msg|items'] eqn:Ec; [discriminate|].
      injection H as <-. destruct Hin as [Hin|Hin].
      * destruct cls as [t'|]; [|discriminate]. injection Hin as <- <-.
        split; [left; reflexivity|exact Ep].
      * destruct (IH items' eq_refl arg t Hin) as [H1 H2].
        split; [right; exact H1|exact H2].
Qed.

Section ParsingFacts.

Variable py_int : string -> option Z.
Variable py_float : string -> option float.
Variable str_repr : string -> string.
Variable format_usage : ArgumentParser -> string.
Variable format_help : ArgumentParser -> string.
Variable ap : ArgumentParser.

Let error_at {A} (msg : string) (w : world) : outcome A * world :=
  (Exit 2, error_world (format_usage ap) (prog ap) msg w).
Let take_action := Argparse.take_action py_int py_float str_repr format_usage format_help.
Let take_actions := Argparse.take_actions py_int py_float str_repr format_usage format_help.
Let parse_items := Argparse.parse_items py_int py_float str_repr format_usage format_help.
Let consume_optional := Argparse.consume_optional str_repr.
Let get_values := Argparse.get_values py_int py_float str_repr.

Lemma error_exits {A} (msg : string) (w : world) :
  @error format_usage A ap msg w = error_at msg w.
Proof. reflexivity. Qed.

Lemma take_action_store (st : pstate) (a : action) (args : list string)
    (os : string) (w : world) :
  kind a = StoreAction ->
  take_action ap st (a, args, os) w
  = match get_values a args with
    | inl msg => error_at msg w
    | inr v => (Return (after_store st a v), w)
    end.
Proof.
  intros K. unfold take_action, Argparse.take_action, get_values.
  destruct (Argparse.get_values _ _ _ a args); [reflexivity|].
  rewrite K. reflexivity.
Qed.

Lemma take_actions_help (st : pstate) (a : action) (os : string)
    (tuples : list (action * list string * string)) (w : world) :
  kind a = HelpAction ->
  take_actions ap st ((a, [], os) :: tuples) w
  = (Exit 0, help_world (format_help ap) w).
Proof.
  intros K. unfold take_actions. simpl. unfold bind, Argparse.take_action.
  unfold Argparse.get_values. simpl. rewrite K. reflexivity.
Qed.

Lemma take_actions_store_one (st : pstate) (a : action) (x os : string) (w : world) :
  kind a = StoreAction ->
  take_actions ap st [(a, [x], os)] w
  = match get_values a [x] with
    | inl msg => error_at msg w
    | inr v => (Return (after_store st a v), w)
    end.
Proof.
  intros K.
  change (take_actions ap st [(a, [x], os)] w)
    with (bind (take_action ap st (a, [x], os)) (fun st' => ret st') w).
  unfold bind. rewrite (take_action_store st a [x] os w K).
  destruct (get_values a [x]); reflexivity.
Qed.

Lemma match_following_extends (a : action) (os : string)
    (following : list (string * argclass))
    (acc tuples : list (action * list string * string)) (b : bool) :
  match_following a os following acc = Consumed tuples b ->
  exists more, tuples = (acc ++ more)%list.
Proof.
  unfold match_following. destruct (kind a).
  - destruct following as [|[v [| |t]] rest]; try discriminate.
    intros [= <- _]. eexists. reflexivity.
  - intros [= <- _]. eexists. reflexivity.
Qed.

Lemma match_explicit_extends (e : string) :
  forall (a : action) (os : string) (following : list (string * argclass))
         (acc tuples : list (action * list string * string)) (b : bool),
    match_explicit str_repr ap a os e following acc = Consumed tuples b ->
    exists more, tuples = (acc ++ more)%list.
Proof.
  induction e as [|c e' IH]; intros a os following acc tuples b; simpl.
  - destruct (kind a).
    + intros [= <- _]. eexists. reflexivity.
    + destruct (second_char_is_dash os); discriminate.
  - destruct (kind a).
    + intros [= <- _]. eexists. reflexivity.
    + destruct (second_char_is_dash os); [discriminate|].
      destruct (assoc _ _) as [a'|]; [|discriminate].
      destruct e' as [|c' e''].
      * intros H. apply match_following_extends in H as [more ->].
        rewrite <- List.app_assoc. eexists. reflexivity.
      * intros H. apply IH in H as [more ->].
        rewrite <- List.app_assoc. eexists. reflexivity.
Qed.

(** A store action consumes its explicit argument or the next string. *)
Lemma consume_optional_store (a : action) (os : string) (ex : option string)
    (following : list (string * argclass)) :
  kind a = StoreAction ->
  consume_optional ap a os ex following
  = match ex with
    | Some e => Consumed [(a, [e], os)] false
    | None =>
        match following with
        | (v, ClsA) :: _ => Consumed [(a, [v], os)] true
        | _ => ArgError (argument_error a "expected one argument")
        end
    end.
Proof.
  intros K. unfold consume_optional, Argparse.consume_optional.
  destruct ex as [e|].
  - destruct e; simpl; rewrite K; reflexivity.
  - unfold match_following. rewrite K. reflexivity.
Qed.

(** The help action comes first in whatever its option string expands to. *)
Lemma consume_optional_help (a : action) (os : string) (ex : option string)
    (following : list (string * argclass))
    (tuples : list (action * list string * string)) (b : bool) :
  kind a = HelpAction ->
  consume_optional ap a os ex following = Consumed tuples b ->
  exists more, tuples = (a, [], os) :: more.
Proof.
  intros K. unfold consume_optional, Argparse.consume_optional.
  destruct ex as [e|].
  - destruct e as [|c e']; simpl; rewrite K.
    + destruct (second_char_is_dash os); discriminate.
    + destruct (second_char_is_dash os); [discriminate|].
      destruct (assoc _ _) as [a'|]; [|discriminate].
      destruct e' as [|c' e''].
      * intros H. apply match_following_extends in H as [more ->].
        eexists. reflexivity.
      * intros H. apply match_explicit_extends in H as [more ->].
        eexists. reflexivity.
  - unfold match_following. rewrite K. intros [= <- _]. eexists. reflexivity.
Qed.

(** One round of the main loop on an option of the parser: the help
    action ends the run; a store action ends it with an error or stores a
    value and goes on with the strings after it. *)
Lemma parse_items_option (arg : string) (a : action) (os : string)
    (ex : option string) (rest : list (string * argclass)) (st : pstate) (w : world) :
  let run := parse_items ap ((arg, ClsO (Some a, os, ex)) :: rest) st w in
  (exists msg, run = error_at msg w) \/
  (kind a = HelpAction /\ run = (Exit 0, help_world (format_help ap) w)) \/
  (kind a = StoreAction /\
   exists v rest',
     (rest' = rest \/ exists x, rest = x :: rest') /\
     run = parse_items ap rest' (after_store st a v) w).
Proof.
  simpl. unfold parse_items. simpl.
  fold consume_optional. fold take_actions. fold parse_items.
  destruct (kind a) eqn:K.
  - rewrite (consume_optional_store a os ex rest K).
    assert (Hone : forall x b,
               (exists msg, bind (take_actions ap st [(a, [x], os)])
                                 (fun st' => match b, rest with
                                             | true, _ :: rest' => parse_items ap rest' st'
                                             | _, _ => parse_items ap rest st'
                                             end) w = error_at msg w) \/
               exists v,
                 bind (take_actions ap st [(a, [x], os)])
                      (fun st' => match b, rest with
                                  | true, _ :: rest' => parse_items ap rest' st'
                                  | _, _ => parse_items ap rest st'
                                  end) w
                 = match b, rest with
                   | true, _ :: rest' => parse_items ap rest' (after_store st a v) w
                   | _, _ => parse_items ap rest (after_store st a v) w
                   end).
    { intros x b. unfold bind.
      rewrite (take_actions_store_one st a x os w K).
      destruct (get_values a [x]) as [msg|v].
      - left. exists msg. reflexivity.
      - right. exists v. destruct b; [destruct rest|]; reflexivity. }
    destruct ex as [e|].
    + destruct (Hone e false) as [[msg Hm]|[v Hv]].
      * left. exists msg. exact Hm.
      * right. right. split; [reflexivity|]. exists v, rest. split; [left; reflexivity|].
        rewrite Hv. reflexivity.
    + destruct rest as [|[v0 [| |t]] rest'];
        try (left; eexists; reflexivity).
      destruct (Hone v0 true) as [[msg Hm]|[v Hv]].
      * left. exists msg. exact Hm.
      * right. right. split; [reflexivity|]. exists v, rest'.
        split; [right; eexists; reflexivity|]. rewrite Hv. reflexivity.
  - destruct (consume_optional ap a os ex rest) as [tuples b|msg] eqn:Ec.
    + apply (consume_optional_help a os ex rest tuples b K) in Ec as [more ->].
      right. left. split; [reflexivity|].
      unfold bind. rewrite (take_actions_help st a os more w K). reflexivity.
    + left. exists msg. reflexivity.
Qed.

Lemma parse_items_extra (arg : string) (cls : argclass)
    (rest : list (string * argclass)) (st : pstate) (w : world) :
  match cls with ClsO (Some _, _, _) => False | _ => True end ->
  parse_items ap ((arg, cls) :: rest) st w = parse_items ap rest (add_extra st arg) w.
Proof. destruct cls as [| |[[[a|] os] ex]]; intros H; [reflexivity..|destruct H|reflexivity]. Qed.

(** The loop as a whole, for a property [I] of the parsing state that
    extras and the store actions of the command line preserve: the run
    returns in a state satisfying [I] without touching the world, or it
    stops with an error, or a help option of the command line stops it. *)
Lemma parse_items_run (I : pstate -> Prop) (items0 : list (string * argclass)) :
  (forall st s, I st -> I (add_extra st s)) ->
  (forall arg a os ex st v,
      In (arg, ClsO (Some a, os, ex)) items0 -> kind a = StoreAction ->
      I st -> I (after_store st a v)) ->
  forall (n : nat) (items : list (string * argclass)) (st : pstate) (w : world),
    (List.length items <= n)%nat -> List.incl items items0 -> I st ->
    (exists st', parse_items ap items st w = (Return st', w) /\ I st') \/
    (exists msg, parse_items ap items st w = error_at msg w) \/
    (parse_items ap items st w = (Exit 0, help_world (format_help ap) w) /\
     exists arg a os ex, In (arg, ClsO (Some a, os, ex)) items0 /\ kind a = HelpAction).
Proof.
  intros Hextra Hstore. induction n as [|n IH]; intros items st w Hlen Hincl HI.
  - destruct items; [|simpl in Hlen; lia]. left. exists st. split; [reflexivity|exact HI].
  - destruct items as [|[arg cls] rest].
    { left. exists st. split; [reflexivity|exact HI]. }
    assert (Hrest : List.incl rest items0).
    { intros x Hx. apply Hincl. right. exact Hx. }
    simpl in Hlen.
    destruct cls as [| |[[[a|] os] ex]].
    + rewrite parse_items_extra by exact Logic.I.
      apply IH; [lia|exact Hrest|apply Hextra; exact HI].
    + rewrite parse_items_extra by exact Logic.I.
      apply IH; [lia|exact Hrest|apply Hextra; exact HI].
    + destruct (parse_items_option arg a os ex rest st w)
        as [[msg Hm]|[[K Hh]|(K & v & rest' & Hr & Hrun)]].
      * right. left. exists msg. exact Hm.
      * right. right. split; [exact Hh|].
        exists arg, a, os, ex. split; [apply Hincl; left; reflexivity|exact K].
      * rewrite Hrun. apply IH.
        -- destruct Hr as [->|[x ->]]; simpl in *; lia.
        -- destruct Hr as [->|[x ->]]; [exact Hrest|].
           intros y Hy. apply Hrest. right. exact Hy.
        -- apply (Hstore arg a os ex); [apply Hincl; left; reflexivity|exact K|exact HI].
    + rewrite parse_items_extra by exact Logic.I.
      apply IH; [lia|exact Hrest|apply Hextra; exact HI].
Qed.

Let parse_args := Argparse.parse_args py_int py_float str_repr format_usage format_help.
Let check_actions := Argparse.check_actions py_int py_float str_repr.

Lemma check_actions_keeps_required (l : list action) (st : pstate) (ns ns' : Namespace)
    (req req' : list string) :
  check_actions l st ns req = inr (ns', req') -> req <> [] -> req' <> [].
Proof.
  revert ns req. induction l as [|a l IH]; simpl; intros ns req H Hreq.
  - injection H as _ <-. exact Hreq.
  - destruct (seen_action st a); [eapply IH; eassumption|].
    destruct (required a).
    { eapply IH; [exact H|]. destruct req; discriminate. }
    destruct (dest a) as [d|]; [|eapply IH; eassumption].
    destruct (default_ a) as [[| | | |s|]|]; try (eapply IH; eassumption).
    destruct (ns_lookup ns d) as [[| | | |s'|]|]; try (eapply IH; eassumption).
    destruct (String.eqb s s'); [|eapply IH; eassumption].
    destruct (Argparse.get_value _ _ _ a s); [discriminate|].
    eapply IH; eassumption.
Qed.

(** A required action that was not seen is reported. *)
Lemma check_actions_reports (l : list action) (st : pstate) (a : action) :
  In a l -> seen_action st a = false -> required a = true ->
  forall ns req ns' req', check_actions l st ns req = inr (ns', req') -> req' <> [].
Proof.
  intros Hin Hseen Hreq. induction l as [|a0 l IH]; [destruct Hin|].
  intros ns req ns' req'. destruct Hin as [->|Hin].
  - simpl. rewrite Hseen, Hreq. intros H.
    eapply check_actions_keeps_required; [exact H|].
    destruct req; discriminate.
  - simpl. specialize (IH Hin).
    destruct (seen_action st a0); [apply IH|].
    destruct (required a0); [apply IH|].
    destruct (dest a0) as [d|]; [|apply IH].
    destruct (default_ a0) as [[| | | |s|]|]; try apply IH.
    destruct (ns_lookup ns d) as [[| | | |s'|]|]; try apply IH.
    destruct (String.eqb s s'); [|apply IH].
    destruct (Argparse.get_value _ _ _ a0 s); [discriminate|]. apply IH.
Qed.

(** String defaults converted by [str] leave the namespace as it was. *)
Lemma check_actions_lookup (l : list action) (st : pstate) :
  (forall a s, In a l -> default_ a = Some (VStr s) -> type_ a = TStr) ->
  forall ns req ns' req',
    check_actions l st ns req = inr (ns', req') ->
    forall d, ns_lookup ns' d = ns_lookup ns d.
Proof.
  induction l as [|a l IH]; intros Hstr ns req ns' req'; simpl.
  - intros [= <- _] d. reflexivity.
  - assert (Hl : forall a0 s, In a0 l -> default_ a0 = Some (VStr s) -> type_ a0 = TStr).
    { intros a0 s H. apply Hstr. right. exact H. }
    specialize (IH Hl).
    destruct (seen_action st a); [apply IH|].
    destruct (required a); [apply IH|].
    destruct (dest a) as [d0|]; [|apply IH].
    destruct (default_ a) as [[| | | |s|]|] eqn:Ed; try apply IH.
    destruct (ns_lookup ns d0) as [[| | | |s'|]|] eqn:El; try apply IH.
    destruct (String.eqb s s') eqn:Es; [|apply IH].
    apply String.eqb_eq in Es. subst s'.
    unfold Argparse.get_value, apply_type.
    rewrite (Hstr a s (or_introl eq_refl) Ed).
    intros H d. rewrite (IH _ _ _ _ H d).
    destruct (String.eqb d0 d) eqn:E.
    + apply String.eqb_eq in E. subst d. rewrite ns_lookup_setattr_eq. symmetry. exact El.
    + apply ns_lookup_setattr_ne. intros ->. rewrite String.eqb_refl in E. discriminate.
Qed.

Lemma help_item_requested (args : list string) (items : list (string * argclass)) :
  classify ap args = inr items ->
  (exists arg a os ex, In (arg, ClsO (Some a, os, ex)) items /\ kind a = HelpAction) ->
  help_requested ap args = true.
Proof.
  intros Hc (arg & a & os & ex & Hin & K).
  destruct (classify_items ap args items Hc arg _ Hin) as [Harg Hp].
  unfold help_requested. apply List.existsb_exists. exists arg. split; [exact Harg|].
  unfold asks_help, selected_action. rewrite Hp, K. reflexivity.
Qed.

(** How [parse_args] ends: it returns and leaves the world alone, or it
    prints the usage and an error and exits with status 2, or a help
    option prints the help and exits with status 0. *)
Lemma parse_args_ends (args : list string) (w : world) :
  (exists ns, parse_args ap args w = (Return ns, w)) \/
  (exists msg, parse_args ap args w = error_at msg w) \/
  (parse_args ap args w = (Exit 0, help_world (format_help ap) w) /\
   help_requested ap args = true).
Proof.
  unfold parse_args, Argparse.parse_args.
  destruct (classify ap args) as [msg|items] eqn:Hc.
  { right. left. exists msg. reflexivity. }
  fold parse_items. fold check_actions. unfold bind.
  destruct (parse_items_run (fun _ => True) items (fun _ _ _ => Logic.I)
              (fun _ _ _ _ _ _ _ _ _ => Logic.I) (List.length items) items
              (PState (initial_namespace ap) [] []) w (le_n _) (List.incl_refl _) Logic.I)
    as [(st' & -> & _)|[[msg ->]|[-> Hh]]].
  - destruct (check_actions (actions ap) st' (ns st') []) as [msg|[ns' [|r req]]].
    + right. left. exists msg. reflexivity.
    + destruct (extras st').
      * left. exists ns'. reflexivity.
      * right. left. eexists. reflexivity.
    + right. left. eexists. reflexivity.
  - right. left. exists msg. reflexivity.
  - right. right. split; [reflexivity|].
    apply (help_item_requested args items Hc Hh).
Qed.

(** A required option that no string of the command line selects makes
    the parser exit. *)
Lemma parse_args_missing_required (args : list string) (w : world) (a_req : action) :
  In a_req (actions ap) -> required a_req = true ->
  (forall arg a, In arg args -> selected_action ap arg = Some a ->
                 action_name a <> action_name a_req) ->
  (exists msg, parse_args ap args w = error_at msg w) \/
  (parse_args ap args w = (Exit 0, help_world (format_help ap) w) /\
   help_requested ap args = true).
Proof.
  intros Hin Hreq Hsel.
  unfold parse_args, Argparse.parse_args.
  destruct (classify ap args) as [msg|items] eqn:Hc.
  { left. exists msg. reflexivity. }
  fold parse_items. fold check_actions. unfold bind.
  destruct (parse_items_run (fun st => seen_action st a_req = false) items) with
    (n := List.length items) (items := items)
    (st := PState (initial_namespace ap) [] []) (w := w)
    as [(st' & -> & Hseen)|[[msg ->]|[-> Hh]]].
  - intros st s H. exact H.
  - intros arg a os ex st v Hitem K H.
    destruct (classify_items ap args items Hc arg _ Hitem) as [Harg Hp].
    unfold seen_action, after_store. simpl. fold (seen_action st a_req). rewrite H.
    assert (Hne : action_name a <> action_name a_req).
    { apply (Hsel arg a Harg). unfold selected_action. rewrite Hp. reflexivity. }
    destruct (String.eqb (action_name a_req) (action_name a)) eqn:E; [|reflexivity].
    apply String.eqb_eq in E. congruence.
  - apply le_n.
  - apply List.incl_refl.
  - reflexivity.
  - destruct (check_actions (actions ap) st' (ns st') []) as [msg|[ns' [|r req]]] eqn:Hk.
    + left. exists msg. reflexivity.
    + exfalso.
      exact (check_actions_reports (actions ap) st' a_req Hin Hseen Hreq _ _ _ _ Hk eq_refl).
    + left. eexists. reflexivity.
  - left. exists msg. reflexivity.
  - right. split; [reflexivity|]. apply (help_item_requested args items Hc Hh).
Qed.

(** An option that no string of the command line selects keeps what the
    initial namespace holds for it. *)
Lemma parse_args_keeps_default (args : list string) (w w' : world) (ns : Namespace)
    (d : string) (v : pyval) :
  (forall a s, In a (actions ap) -> default_ a = Some (VStr s) -> type_ a = TStr) ->
  ns_lookup (initial_namespace ap) d = Some v ->
  supplied ap d args = false ->
  parse_args ap args w = (Return ns, w') ->
  ns_lookup ns d = Some v.
Proof.
  intros Hstr Hinit Hsup.
  unfold parse_args, Argparse.parse_args.
  destruct (classify ap args) as [msg|items] eqn:Hc; [discriminate|].
  fold parse_items. fold check_actions. unfold bind.
  destruct (parse_items_run (fun st => ns_lookup (Argparse.ns st) d = Some v) items) with
    (n := List.length items) (items := items)
    (st := PState (initial_namespace ap) [] []) (w := w)
    as [(st' & -> & Hst)|[[msg ->]|[-> Hh]]]; try discriminate.
  - intros st s H. exact H.
  - intros arg a os ex st v0 Hitem K H.
    destruct (classify_items ap args items Hc arg _ Hitem) as [Harg Hp].
    unfold after_store. simpl.
    destruct (dest a) as [d'|] eqn:Ed; [|exact H].
    rewrite ns_lookup_setattr_ne; [exact H|].
    intros ->.
    assert (Hn : names_option ap d arg = true).
    { unfold names_option, selected_action. rewrite Hp, Ed. apply String.eqb_refl. }
    unfold supplied in Hsup.
    assert (Hex : List.existsb (names_option ap d) args = true).
    { apply List.existsb_exists. exists arg. split; assumption. }
    congruence.
  - apply le_n.
  - apply List.incl_refl.
  - exact Hinit.
  - destruct (check_actions (actions ap) st' (Argparse.ns st') []) as [msg|[ns' [|r req]]] eqn:Hk;
      try discriminate.
    destruct (extras st'); [|discriminate].
    intros [= <- _].
    rewrite (check_actions_lookup (actions ap) st' Hstr _ _ _ _ Hk d). exact Hst.
Qed.

End ParsingFacts.

(** ** [get_argv]: the schema *)

Lemma classify_cons_argument (ap : ArgumentParser) (s : string) (rest : list string) :
  is_argument ap s = true ->
  classify ap (s :: rest)
  = match classify ap rest with
    | inl msg => inl msg
    | inr items => inr ((s, ClsA) :: items)
    end.
Proof.
  unfold is_argument. intros H. apply andb_prop in H as [Hne Hp].
  simpl. destruct (String.eqb s "--"); [discriminate|].
  destruct (parse_optional ap s) as [msg|[t|]]; try discriminate. reflexivity.
Qed.

Lemma classify_cons_option (ap : ArgumentParser) (s : string) (t : option_tuple)
    (rest : list string) :
  String.eqb s "--" = false ->
  parse_optional ap s = inr (Some t) ->
  classify ap (s :: rest)
  = match classify ap rest with
    | inl msg => inl msg
    | inr items => inr ((s, ClsO t) :: items)
    end.
Proof. intros Hne Hp. simpl. rewrite Hne, Hp. reflexivity. Qed.

Lemma is_argument_not_dashes (ap : ArgumentParser) (s : string) :
  is_argument ap s = true -> String.eqb s "--" = false.
Proof.
  unfold is_argument. intros H. apply andb_prop in H as [Hne _].
  destruct (String.eqb s "--"); [discriminate|reflexivity].
Qed.

(** A string that does not start with a dash is an argument. *)
Lemma is_argument_plain (ap : ArgumentParser) (c : ascii) (s : string) :
  c <> "-"%char -> is_argument ap (String c s) = true.
Proof.
  intros Hc. unfold is_argument. simpl.
  destruct (Ascii.eqb c "-") eqn:E; [apply Ascii.eqb_eq in E; contradiction|].
  simpl. reflexivity.
Qed.

Lemma py_truthy_nonempty (s : string) : s <> "" -> py_truthy (VStr s) = true.
Proof.
  intros Hs. simpl. destruct (String.eqb s "") eqn:E; [|reflexivity].
  apply String.eqb_eq in E. contradiction.
Qed.

Section GetArgvFacts.

Variable py_int : string -> option Z.
Variable py_float : string -> option float.
Variable str_repr : string -> string.
Variable format_usage : ArgumentParser -> string.
Variable format_help : ArgumentParser -> string.

Let get_argv := get_argv py_int py_float str_repr format_usage format_help.
Let parse_args := Argparse.parse_args py_int py_float str_repr format_usage format_help.
Let parse_items := Argparse.parse_items py_int py_float str_repr format_usage format_help.
Let get_value := Argparse.get_value py_int py_float str_repr.

Lemma get_argv_parse_args (w : world) :
  get_argv w = parse_args argument_parser (List.tl (sys_argv w)) w.
Proof. reflexivity. Qed.

(** One round of the loop for a store option followed by its value. *)
Lemma parse_items_store_next (ap : ArgumentParser) (arg : string) (a : action)
    (os v : string) (val : pyval) (rest : list (string * argclass))
    (st : pstate) (w : world) :
  kind a = StoreAction ->
  String.eqb v "--" = false ->
  get_value a v = inr val ->
  parse_items ap ((arg, ClsO (Some a, os, None)) :: (v, ClsA) :: rest) st w
  = parse_items ap rest (after_store st a val) w.
Proof.
  intros K Hv Hval.
  unfold parse_items. simpl.
  fold (Argparse.consume_optional str_repr ap a os None ((v, ClsA) :: rest)).
  rewrite (consume_optional_store str_repr ap a os None _ K).
  unfold bind.
  fold (Argparse.take_actions py_int py_float str_repr format_usage format_help
          ap st [(a, [v], os)]).
  rewrite (take_actions_store_one py_int py_float str_repr format_usage format_help
             ap st a v os w K).
  unfold Argparse.get_values. simpl. rewrite Hv, K.
  fold get_value. rewrite Hval. reflexivity.
Qed.

Lemma argument_parser_string_defaults (a : action) (s : string) :
  In a (actions argument_parser) -> default_ a = Some (VStr s) -> type_ a = TStr.
Proof.
  intros Hin. vm_compute in Hin.
  repeat (destruct Hin as [<-|Hin]; [simpl; first [discriminate | reflexivity]|]).
  destruct Hin.
Qed.

Lemma argument_parser_names (a b : action) :
  In a (actions argument_parser) -> In b (actions argument_parser) ->
  action_name a = action_name b -> dest a = dest b.
Proof.
  intros Ha Hb. vm_compute in Ha. vm_compute in Hb.
  repeat (destruct Ha as [<-|Ha];
          [repeat (destruct Hb as [<-|Hb];
                   [vm_compute; first [discriminate | reflexivity]|]);
           destruct Hb|]).
  destruct Ha.
Qed.

Lemma required_action (d : string) :
  In d ["architecture"; "dataset"; "model_name"] ->
  exists a, In a (actions argument_parser) /\ required a = true /\ dest a = Some d.
Proof.
  simpl. intros [<-|[<-|[<-|[]]]].
  - exists (Action ["-a"; "--architecture"] (Some "architecture") StoreAction true
                   (Some VNone) TStr).
    vm_compute. auto 6.
  - exists (Action ["-d"; "--dataset"] (Some "dataset") StoreAction true
                   (Some VNone) TStr).
    vm_compute. auto 6.
  - exists (Action ["-mn"; "--model-name"] (Some "model_name") StoreAction true
                   (Some VNone) TStr).
    vm_compute. auto 8.
Qed.

Lemma selected_action_parse (ap : ArgumentParser) (arg : string) (a : action) :
  selected_action ap arg = Some a ->
  exists os ex, parse_optional ap arg = inr (Some (Some a, os, ex)).
Proof.
  unfold selected_action.
  destruct (parse_optional ap arg) as [msg|[[[[a'|] os] ex]|]]; try discriminate.
  intros [= ->]. exists os, ex. reflexivity.
Qed.

Lemma not_supplied_other_name (d : string) (args : list string) (a_req : action) :
  In a_req (actions argument_parser) -> dest a_req = Some d ->
  supplied argument_parser d args = false ->
  forall arg a, In arg args -> selected_action argument_parser arg = Some a ->
                action_name a <> action_name a_req.
Proof.
  intros Hin Hdest Hsup arg a Harg Hsel Hname.
  destruct (selected_action_parse _ _ _ Hsel) as (os & ex & Hp).
  pose proof (selected_action_in _ _ _ _ _ Hp) as Ha.
  pose proof (argument_parser_names a a_req Ha Hin Hname) as Hd.
  assert (Hn : names_option argument_parser d arg = true).
  { unfold names_option. rewrite Hsel, Hd, Hdest. apply String.eqb_refl. }
  assert (Hex : List.existsb (names_option argument_parser d) args = true).
  { apply List.existsb_exists. exists arg. split; assumption. }
  unfold supplied in Hsup. congruence.
Qed.

(** C7. A command line that does not supply one of the required options
    never gets past [get_argv]: whatever the program does next ([k]) is
    not run and no file is written. The process exits with status 2 after
    the usage and an error message went to the standard error stream,
    unless a help option stops the parser first, with the help text on the
    standard output and status 0. *)
Theorem get_argv_missing_required_exits {B : Type} (k : Namespace -> M B)
    (d : string) (w : world) :
  In d ["architecture"; "dataset"; "model_name"] ->
  supplied argument_parser d (List.tl (sys_argv w)) = false ->
  files (snd (bind get_argv k w)) = files w /\
  ((exists msg,
       bind get_argv k w
       = (Exit 2, error_world (format_usage argument_parser) (prog argument_parser) msg w)) \/
   (help_requested argument_parser (List.tl (sys_argv w)) = true /\
    bind get_argv k w = (Exit 0, help_world (format_help argument_parser) w))).
Proof.
  intros Hd Hsup.
  destruct (required_action d Hd) as (a_req & Hin & Hreq & Hdest).
  unfold bind. rewrite get_argv_parse_args.
  destruct (parse_args_missing_required py_int py_float str_repr format_usage format_help
              argument_parser (List.tl (sys_argv w)) w a_req Hin Hreq
              (not_supplied_other_name d _ a_req Hin Hdest Hsup))
    as [[msg Hm]|[Hm Hh]]; fold parse_args in Hm; rewrite Hm.
  - split; [reflexivity|]. left. exists msg. reflexivity.
  - split; [reflexivity|]. right. split; [exact Hh|reflexivity].
Qed.

Lemma getattr_lookup (ns : Namespace) (d : string) (v : pyval) :
  ns_lookup ns d = Some v -> getattr ns d = Return v.
Proof. intros H. unfold getattr. rewrite H. reflexivity. Qed.

(** The command line [-a a -d d -mn m] parses to the defaults. *)
Lemma get_argv_required_only (w : world) (p a d m : string) :
  sys_argv w = [p; "-a"; a; "-d"; d; "-mn"; m] ->
  is_argument argument_parser a = true ->
  is_argument argument_parser d = true ->
  is_argument argument_parser m = true ->
  get_argv w = (Return (default_namespace a d m), w).
Proof.
  intros Hargv Ha Hd Hm.
  rewrite get_argv_parse_args, Hargv. simpl List.tl.
  unfold parse_args, Argparse.parse_args.
  rewrite (classify_cons_option argument_parser "-a" _ _ eq_refl eq_refl).
  rewrite (classify_cons_argument argument_parser a _ Ha).
  rewrite (classify_cons_option argument_parser "-d" _ _ eq_refl eq_refl).
  rewrite (classify_cons_argument argument_parser d _ Hd).
  rewrite (classify_cons_option argument_parser "-mn" _ _ eq_refl eq_refl).
  rewrite (classify_cons_argument argument_parser m _ Hm).
  change (classify argument_parser []) with (@inr string _ (@nil (string * argclass))).
  cbv iota beta. unfold bind.
  fold parse_items.
  erewrite parse_items_store_next;
    [|reflexivity|exact (is_argument_not_dashes _ _ Ha)|reflexivity].
  erewrite parse_items_store_next;
    [|reflexivity|exact (is_argument_not_dashes _ _ Hd)|reflexivity].
  erewrite parse_items_store_next;
    [|reflexivity|exact (is_argument_not_dashes _ _ Hm)|reflexivity].
  reflexivity.
Qed.

(** C8. A command line with only the three required options yields the
    defaults, and in any configuration [get_argv] returns, an optional
    flag that the command line does not supply has its default: normalize
    true, grayscale false, image size 64, optimizer SGD, learning rate
    0.001, 30 epochs, batch size 32. *)
Theorem get_argv_defaults (w : world) :
  (forall p a d m,
      sys_argv w = [p; "-a"; a; "-d"; d; "-mn"; m] ->
      is_argument argument_parser a = true ->
      is_argument argument_parser d = true ->
      is_argument argument_parser m = true ->
      get_argv w = (Return (default_namespace a d m), w)) /\
  (forall ns w',
      get_argv w = (Return ns, w') ->
      let absent d := supplied argument_parser d (List.tl (sys_argv w)) = false in
      (absent "normalize" -> getattr ns "normalize" = Return (VBool true)) /\
      (absent "grayscale" -> getattr ns "grayscale" = Return (VBool false)) /\
      (absent "image_size" -> getattr ns "image_size" = Return (VInt 64)) /\
      (absent "optimizer" -> getattr ns "optimizer" = Return (VStr "SGD")) /\
      (absent "etha" ->
         getattr ns "etha" = Return (VFloat 0x1.0624dd2f1a9fcp-10%float)) /\
      (absent "epochs" -> getattr ns "epochs" = Return (VInt 30)) /\
      (absent "batch_size" -> getattr ns "batch_size" = Return (VInt 32))).
Proof.
  split.
  - intros p a d m. apply get_argv_required_only.
  - intros ns w' Hrun absent. rewrite get_argv_parse_args in Hrun.
    assert (Hkeep : forall d v,
               ns_lookup (initial_namespace argument_parser) d = Some v ->
               absent d -> getattr ns d = Return v).
    { intros d v Hinit Habs. apply getattr_lookup.
      exact (parse_args_keeps_default py_int py_float str_repr format_usage format_help
               argument_parser _ w w' ns d v argument_parser_string_defaults
               Hinit Habs Hrun). }
    repeat split; apply Hkeep; reflexivity.
Qed.

End GetArgvFacts.

Lemma get_argv_missing_required_exits_witness :
  In "dataset" ["architecture"; "dataset"; "model_name"] /\
  supplied argument_parser "dataset" ["-a"; "lenet"; "-mn"; "m1"] = false /\
  files (snd (bind (get_argv ascii_int ascii_float quoted sample_usage sample_help)
                   (fun _ => file_write "output/reports/m1_report.txt" "REPORT")
                   (sample_world ["trainer/main.py"; "-a"; "lenet"; "-mn"; "m1"])))
  = ∅ /\
  bind (get_argv ascii_int ascii_float quoted sample_usage sample_help)
       (fun _ => file_write "output/reports/m1_report.txt" "REPORT")
       (sample_world ["trainer/main.py"; "-a"; "lenet"; "-mn"; "m1"])
  = (Exit 2,
     error_world (sample_usage argument_parser) "python(3.6) trainer/main.py"
       "the following arguments are required: -d/--dataset"
       (sample_world ["trainer/main.py"; "-a"; "lenet"; "-mn"; "m1"])).
Proof.
  assert (H1 : In "dataset" ["architecture"; "dataset"; "model_name"])
    by (simpl; auto).
  assert (H2 : supplied argument_parser "dataset"
                 (List.tl (sys_argv (sample_world
                    ["trainer/main.py"; "-a"; "lenet"; "-mn"; "m1"]))) = false)
    by (vm_compute; reflexivity).
  split; [exact H1|]. split; [exact H2|]. split.
  - exact (proj1 (get_argv_missing_required_exits ascii_int ascii_float quoted
                    sample_usage sample_help
                    (fun _ => file_write "output/reports/m1_report.txt" "REPORT")
                    "dataset"
                    (sample_world ["trainer/main.py"; "-a"; "lenet"; "-mn"; "m1"])
                    H1 H2)).
  - vm_compute. reflexivity.
Defined.

(** With [-h] alone every required option is missing, and the process
    exits with status 0. *)
Lemma get_argv_help_exits_zero :
  supplied argument_parser "architecture" ["-h"] = false /\
  supplied argument_parser "dataset" ["-h"] = false /\
  supplied argument_parser "model_name" ["-h"] = false /\
  fst (get_argv ascii_int ascii_float quoted sample_usage sample_help
         (sample_world ["trainer/main.py"; "-h"])) = Exit 0 /\
  ~ (exists status,
        status <> 0 /\
        fst (get_argv ascii_int ascii_float quoted sample_usage sample_help
               (sample_world ["trainer/main.py"; "-h"])) = Exit status).
Proof.
  repeat (split; [vm_compute; reflexivity|]).
  intros (status & Hne & H). vm_compute in H. injection H as <-. apply Hne. reflexivity.
Qed.

Lemma get_argv_defaults_witness :
  get_argv ascii_int ascii_float quoted sample_usage sample_help
    (sample_world ["trainer/main.py"; "-a"; "lenet"; "-d"; "data"; "-mn"; "m1"])
  = (Return (default_namespace "lenet" "data" "m1"),
     sample_world ["trainer/main.py"; "-a"; "lenet"; "-d"; "data"; "-mn"; "m1"]) /\
  getattr (default_namespace "lenet" "data" "m1") "epochs" = Return (VInt 30).
Proof.
  pose proof (get_argv_defaults ascii_int ascii_float quoted sample_usage sample_help
                (sample_world ["trainer/main.py"; "-a"; "lenet"; "-d"; "data"; "-mn"; "m1"]))
    as [Hrun Hdef].
  specialize (Hrun "trainer/main.py" "lenet" "data" "m1" eq_refl eq_refl eq_refl eq_refl).
  split; [exact Hrun|].
  apply (Hdef _ _ Hrun). vm_compute. reflexivity.
Defined.

(** ** Runs of [get_argv]

    The parser on a few command lines, with the stand-in builtins. *)

Example get_argv_abbreviated_flag :
  fst (get_argv ascii_int ascii_float quoted sample_usage sample_help
         (sample_world ["trainer/main.py"; "-a"; "lenet"; "-d"; "data"; "-m"; "m1";
                        "--norm"; "no"; "-i"; "-5"; "-e7"]))
  = Return [ ("architecture", VStr "lenet"); ("dataset", VStr "data");
             ("normalize", VBool true); ("model_name", VStr "m1");
             ("grayscale", VBool false); ("image_size", VInt (-5));
             ("optimizer", VStr "SGD");
             ("etha", VFloat 0x1.0624dd2f1a9fcp-10%float);
             ("epochs", VInt 7); ("batch_size", VInt 32) ].
Proof. vm_compute. reflexivity. Qed.

Example get_argv_empty_value_is_false :
  obind (fst (get_argv ascii_int ascii_float quoted sample_usage sample_help
                (sample_world ["trainer/main.py"; "-a"; "lenet"; "-d"; "data";
                               "-mn"; "m1"; "--normalize"; ""; "--grayscale="])))
        (fun ns => obind (getattr ns "normalize")
                     (fun n => obind (getattr ns "grayscale") (fun g => Return (n, g))))
  = Return (VBool false, VBool false).
Proof. vm_compute. reflexivity. Qed.

Example get_argv_attached_dashes_store_a_list :
  obind (fst (get_argv ascii_int ascii_float quoted sample_usage sample_help
                (sample_world ["trainer/main.py"; "-a"; "lenet"; "-d"; "data";
                               "-mn"; "m1"; "--normalize=--"])))
        (fun ns => getattr ns "normalize")
  = Return (VList []).
Proof. vm_compute. reflexivity. Qed.

Example get_argv_invalid_int :
  get_argv ascii_int ascii_float quoted sample_usage sample_help
    (sample_world ["trainer/main.py"; "-a"; "lenet"; "-d"; "data"; "-mn"; "m1";
                   "-i"; "abc"])
  = (Exit 2,
     error_world (sample_usage argument_parser) "python(3.6) trainer/main.py"
       "argument -i/--image-size: invalid int value: 'abc'"
       (sample_world ["trainer/main.py"; "-a"; "lenet"; "-d"; "data"; "-mn"; "m1";
                      "-i"; "abc"])).
Proof. vm_compute. reflexivity. Qed.

Example get_argv_ambiguous_abbreviation :
  get_argv ascii_int ascii_float quoted sample_usage sample_help
    (sample_world ["trainer/main.py"; "-a"; "lenet"; "-d"; "data"; "-mn"; "m1";
                   "-et"; "1"])
  = (Exit 2,
     error_world (sample_usage argument_parser) "python(3.6) trainer/main.py"
       "ambiguous option: -et could match -etha, -e"
       (sample_world ["trainer/main.py"; "-a"; "lenet"; "-d"; "data"; "-mn"; "m1";
                      "-et"; "1"])).
Proof. vm_compute. reflexivity. Qed.

Example get_argv_unrecognized :
  get_argv ascii_int ascii_float quoted sample_usage sample_help
    (sample_world ["trainer/main.py"; "-a"; "lenet"; "-d"; "data"; "-mn"; "m1";
                   "--image_size"; "5"])
  = (Exit 2,
     error_world (sample_usage argument_parser) "python(3.6) trainer/main.py"
       "unrecognized arguments: --image_size 5"
       (sample_world ["trainer/main.py"; "-a"; "lenet"; "-d"; "data"; "-mn"; "m1";
                      "--image_size"; "5"])).
Proof. vm_compute. reflexivity. Qed.

(** ** Fixed-point formatting *)

Example format_10_3f_two_minutes :
  format_10_3f (PrimFloat.div 120%float 60%float) = "     2.000".
Proof. vm_compute. reflexivity. Qed.

Example format_10_3f_ties_to_even : format_10_3f 0.0625%float = "     0.062".
Proof. vm_compute. reflexivity. Qed.

(** 2.0005 and 0.0015 are not binary fractions: the nearest binary64
    values lie above them and round up; 1234567.0625 is a tie. *)
Example format_10_3f_rounds_binary_value :
  format_10_3f 0x1.0010624dd2f1bp+1%float = "     2.001" /\
  format_10_3f 0x1.89374bc6a7efap-10%float = "     0.002" /\
  format_10_3f 0x1.2d6871p+20%float = "1234567.062" /\
  format_10_3f (PrimFloat.opp 0x1.a36e2eb1c432dp-14%float) = "    -0.000".
Proof. vm_compute. repeat split; reflexivity. Qed.

Example format_10_3f_special_values :
  format_10_3f PrimFloat.nan = "       nan" /\
  format_10_3f PrimFloat.neg_infinity = "      -inf" /\
  format_10_3f (PrimFloat.opp 0%float) = "    -0.000".
Proof. vm_compute. repeat split; reflexivity. Qed.

(** ** [write_training_report]: the report file *)



Lemma bind_return {A B : Type} (m : M A) (k : A -> M B) (w w' : world) (a : A) :
  m w = (Return a, w') -> bind m k w = k a w'.
Proof. intros H. unfold bind. rewrite H. reflexivity. Qed.





Section ReportFacts.

Variable str_repr : string -> string.
Variable float_repr : float -> string.

Let write_report := write_training_report str_repr float_repr.




End ReportFacts.


(** ** [argparse]: what the loop keeps and what it rejects *)

Lemma setattr_keys (ns : Namespace) (k : string) (v : pyval) :
  In k (List.map fst ns) -> List.map fst (setattr ns k v) = List.map fst ns.
Proof.
  induction ns as [|[k0 x] ns IH]; simpl; [intros []|].
  destruct (String.eqb k0 k) eqn:E; [reflexivity|].
  intros [H|H]; [subst k0; rewrite String.eqb_refl in E; discriminate|].
  simpl. rewrite IH by exact H. reflexivity.
Qed.

Lemma ns_lookup_in_keys (ns : Namespace) (k : string) (v : pyval) :
  ns_lookup ns k = Some v -> In k (List.map fst ns).
Proof.
  induction ns as [|[k0 x] ns IH]; simpl; [discriminate|].
  destruct (String.eqb k0 k) eqn:E.
  - apply String.eqb_eq in E. intros _. left. exact E.
  - intros H. right. apply IH. exact H.
Qed.

Lemma ns_lookup_of_key (ns : Namespace) (k : string) :
  In k (List.map fst ns) -> exists v, ns_lookup ns k = Some v.
Proof.
  induction ns as [|[k0 x] ns IH]; simpl; [intros []|].
  destruct (String.eqb k0 k) eqn:E; [intros _; eexists; reflexivity|].
  intros [H|H]; [subst k0; rewrite String.eqb_refl in E; discriminate|].
  apply IH. exact H.
Qed.

Lemma setattr_same (ns : Namespace) (k : string) (v : pyval) :
  ns_lookup ns k = Some v -> setattr ns k v = ns.
Proof.
  induction ns as [|[k0 x] ns IH]; simpl; [discriminate|].
  destruct (String.eqb k0 k) eqn:E.
  - intros [= ->]. reflexivity.
  - intros H. rewrite IH by exact H. reflexivity.
Qed.

Lemma classify_unrecognized (ap : ArgumentParser) (args : list string)
    (items : list (string * argclass)) (arg : string) :
  classify ap args = inr items -> In arg args -> unrecognized ap arg = true ->
  exists s cls, In (s, cls) items /\ never_consumed cls.
Proof.
  revert items. induction args as [|s rest IH]; simpl; intros items Hc Hin Hun;
    [destruct Hin|].
  destruct (String.eqb s "--") eqn:Es.
  - injection Hc as <-. exists s, ClsDash. split; [left; reflexivity|exact Logic.I].
  - destruct (parse_optional ap s) as [msg|cls] eqn:Ep; [discriminate|].
    destruct (classify ap rest) as [msg|items'] eqn:Er; [discriminate|].
    injection Hc as <-. destruct Hin as [->|Hin].
    + unfold unrecognized in Hun. rewrite Es, Ep in Hun. simpl in Hun.
      destruct cls as [[[[a|] os] ex]|]; try discriminate.
      exists arg, (ClsO (None, os, ex)). split; [left; reflexivity|exact Logic.I].
    + destruct (IH items' eq_refl Hin Hun) as (s' & cls' & Hi & Hn).
      exists s', cls'. split; [right; exact Hi|exact Hn].
Qed.

Lemma classify_app (ap : ArgumentParser) (args more : list string)
    (items : list (string * argclass)) :
  classify ap args = inr items ->
  (forall s, In s args -> String.eqb s "--" = false) ->
  classify ap (args ++ more)%list
  = match classify ap more with
    | inl msg => inl msg
    | inr items' => inr (items ++ items')%list
    end.
Proof.
  revert items. induction args as [|s rest IH]; simpl; intros items Hc Hno.
  - injection Hc as <-. destruct (classify ap more); reflexivity.
  - rewrite (Hno s (or_introl eq_refl)) in *.
    destruct (parse_optional ap s) as [msg|cls]; [discriminate|].
    destruct (classify ap rest) as [msg|items'] eqn:Er; [discriminate|].
    injection Hc as <-.
    rewrite (IH items' eq_refl) by (intros s' H; apply Hno; right; exact H).
    destruct (classify ap more); reflexivity.
Qed.

Lemma classify_not_ambiguous (ap : ArgumentParser) (args : list string) :
  (forall s, In s args -> ambiguous ap s = false) ->
  exists items, classify ap args = inr items.
Proof.
  induction args as [|s rest IH]; simpl; intros H; [eexists; reflexivity|].
  destruct (String.eqb s "--"); [eexists; reflexivity|].
  pose proof (H s (or_introl eq_refl)) as Hs. unfold ambiguous in Hs.
  destruct (parse_optional ap s) as [msg|cls]; [discriminate|].
  destruct IH as [items ->]; [intros s' Hs'; apply H; right; exact Hs'|].
  eexists. reflexivity.
Qed.

Section RunFacts.

Variable py_int : string -> option Z.
Variable py_float : string -> option float.
Variable str_repr : string -> string.
Variable format_usage : ArgumentParser -> string.
Variable format_help : ArgumentParser -> string.
Variable ap : ArgumentParser.

Let error_at {A} (msg : string) (w : world) : outcome A * world :=
  (Exit 2, error_world (format_usage ap) (prog ap) msg w).
Let parse_items := Argparse.parse_items py_int py_float str_repr format_usage format_help.
Let parse_args := Argparse.parse_args py_int py_float str_repr format_usage format_help.
Let check_actions := Argparse.check_actions py_int py_float str_repr.
Let get_values := Argparse.get_values py_int py_float str_repr.

(** One round of the loop on a store option, with the string it takes. *)
Lemma parse_items_store (arg : string) (a : action) (os : string)
    (ex : option string) (rest : list (string * argclass)) (st : pstate) (w : world) :
  kind a = StoreAction ->
  let run := parse_items ap ((arg, ClsO (Some a, os, ex)) :: rest) st w in
  (exists msg, run = error_at msg w) \/
  (exists v rest',
     ((ex <> None /\ rest' = rest) \/ (ex = None /\ exists v0, rest = (v0, ClsA) :: rest')) /\
     run = parse_items ap rest' (after_store st a v) w).
Proof.
  intros K. simpl. unfold parse_items. simpl.
  fold (Argparse.consume_optional str_repr ap a os ex rest).
  fold (Argparse.take_actions py_int py_float str_repr format_usage format_help).
  fold parse_items.
  rewrite (consume_optional_store str_repr ap a os ex rest K).
  destruct ex as [e|].
  - unfold bind.
    rewrite (take_actions_store_one py_int py_float str_repr format_usage format_help
               ap st a e os w K).
    destruct (Argparse.get_values py_int py_float str_repr a [e]) as [msg|v].
    + left. exists msg. reflexivity.
    + right. exists v, rest. split; [left; split; [discriminate|reflexivity]|reflexivity].
  - destruct rest as [|[v0 [| |t]] rest']; try (left; eexists; reflexivity).
    unfold bind.
    rewrite (take_actions_store_one py_int py_float str_repr format_usage format_help
               ap st a v0 os w K).
    destruct (Argparse.get_values py_int py_float str_repr a [v0]) as [msg|v].
    + left. exists msg. reflexivity.
    + right. exists v, rest'. split; [right; split; [reflexivity|eexists; reflexivity]|].
      reflexivity.
Qed.

(** A string that no option can take ends up among the extras. *)
Lemma parse_items_leaves_extras (n : nat) :
  forall (items : list (string * argclass)) (st st' : pstate) (w w' : world),
    (List.length items <= n)%nat ->
    parse_items ap items st w = (Return st', w') ->
    extras st <> [] \/ (exists s cls, In (s, cls) items /\ never_consumed cls) ->
    extras st' <> [].
Proof.
  induction n as [|n IH]; intros items st st' w w' Hlen Hrun Hor.
  - destruct items; [|simpl in Hlen; lia]. injection Hrun as <- _.
    destruct Hor as [H|(s & cls & [] & _)]. exact H.
  - destruct items as [|[arg cls] rest].
    { injection Hrun as <- _. destruct Hor as [H|(s & cls & [] & _)]. exact H. }
    simpl in Hlen.
    assert (Hextra : parse_items ap rest (add_extra st arg) w = (Return st', w') ->
                     extras st' <> []).
    { intros H. apply (IH rest (add_extra st arg) st' w w'); [lia|exact H|].
      left. simpl. destruct (extras st); discriminate. }
    destruct cls as [| |[[[a|] os] ex]];
      try (rewrite (parse_items_extra py_int py_float str_repr format_usage format_help)
             in Hrun by exact Logic.I; exact (Hextra Hrun)).
    destruct (parse_items_option py_int py_float str_repr format_usage format_help
                ap arg a os ex rest st w)
      as [[msg Hm]|[[K Hh]|(K & _)]].
    { fold parse_items in Hm. rewrite Hm in Hrun. discriminate. }
    { fold parse_items in Hh. rewrite Hh in Hrun. discriminate. }
    destruct (parse_items_store arg a os ex rest st w K) as [[msg Hm]|(v & rest' & Hr & Hgo)].
    { rewrite Hm in Hrun. discriminate. }
    rewrite Hgo in Hrun.
    apply (IH rest' (after_store st a v) st' w w').
    + destruct Hr as [[_ ->]|[_ [v0 ->]]]; simpl in *; lia.
    + exact Hrun.
    + destruct Hor as [H|(s & c & Hin & Hn)]; [left; exact H|].
      right. exists s, c. split; [|exact Hn].
      destruct Hin as [[= <- <-]|Hin]; [destruct Hn|].
      destruct Hr as [[_ ->]|[_ [v0 ->]]]; [exact Hin|].
      destruct Hin as [[= <- <-]|Hin]; [destruct Hn|exact Hin].
Qed.

(** The strings after a run that returned do not change what it did, in
    whatever world the longer command line is parsed. *)
Lemma parse_items_app (n : nat) :
  forall (items more : list (string * argclass)) (st st' : pstate) (w w' w2 : world),
    (List.length items <= n)%nat ->
    parse_items ap items st w = (Return st', w') ->
    parse_items ap (items ++ more)%list st w2 = parse_items ap more st' w2.
Proof.
  induction n as [|n IH]; intros items more st st' w w' w2 Hlen Hrun.
  - destruct items; [|simpl in Hlen; lia]. injection Hrun as <- _. reflexivity.
  - destruct items as [|[arg cls] rest].
    { injection Hrun as <- _. reflexivity. }
    simpl in Hlen.
    change (((arg, cls) :: rest) ++ more)%list with ((arg, cls) :: (rest ++ more))%list.
    destruct cls as [| |[[[a|] os] ex]];
      try (rewrite (parse_items_extra py_int py_float str_repr format_usage format_help)
             in Hrun by exact Logic.I;
           rewrite (parse_items_extra py_int py_float str_repr format_usage format_help)
             by exact Logic.I;
           apply (IH rest more _ st' w w' w2); [lia|exact Hrun]).
    destruct (parse_items_option py_int py_float str_repr format_usage format_help
                ap arg a os ex rest st w)
      as [[msg Hm]|[[K Hh]|(K & _)]].
    { fold parse_items in Hm. rewrite Hm in Hrun. discriminate. }
    { fold parse_items in Hh. rewrite Hh in Hrun. discriminate. }
    revert Hrun. simpl. unfold parse_items. simpl.
    fold (Argparse.consume_optional str_repr ap a os ex rest).
    fold (Argparse.consume_optional str_repr ap a os ex (rest ++ more)%list).
    fold (Argparse.take_actions py_int py_float str_repr format_usage format_help).
    fold parse_items.
    rewrite !(consume_optional_store str_repr ap a os ex _ K).
    destruct ex as [e|].
    + unfold bind.
      rewrite !(take_actions_store_one py_int py_float str_repr format_usage format_help
                  ap st a e os _ K).
      destruct (Argparse.get_values py_int py_float str_repr a [e]) as [msg|v];
        [discriminate|].
      intros Hrun. apply (IH rest more _ st' w w' w2); [lia|exact Hrun].
    + destruct rest as [|[v0 [| |t]] rest']; try discriminate.
      change (((v0, ClsA) :: rest') ++ more)%list with ((v0, ClsA) :: (rest' ++ more))%list.
      cbv iota. unfold bind.
      rewrite !(take_actions_store_one py_int py_float str_repr format_usage format_help
                  ap st a v0 os _ K).
      destruct (Argparse.get_values py_int py_float str_repr a [v0]) as [msg|v];
        [discriminate|].
      intros Hrun. apply (IH rest' more _ st' w w' w2); [simpl in Hlen; lia|exact Hrun].
Qed.

Lemma parse_items_returns_same_world (items : list (string * argclass))
    (st st' : pstate) (w w' : world) :
  parse_items ap items st w = (Return st', w') -> w' = w.
Proof.
  intros Hrun.
  destruct (parse_items_run py_int py_float str_repr format_usage format_help ap
              (fun _ => True) items (fun _ _ _ => Logic.I)
              (fun _ _ _ _ _ _ _ _ _ => Logic.I) (List.length items) items st w
              (le_n _) (List.incl_refl _) Logic.I)
    as [(st'' & H & _)|[[msg H]|[H _]]];
    fold parse_items in H; rewrite H in Hrun; [|discriminate..].
  injection Hrun as _ <-. reflexivity.
Qed.

(** What [parse_args] needs to return: the loop returned with no extras
    and every required action seen. *)
Lemma parse_args_returns (args : list string) (w w' : world) (ns : Namespace) :
  parse_args ap args w = (Return ns, w') ->
  exists items st,
    classify ap args = inr items /\
    parse_items ap items (PState (initial_namespace ap) [] []) w = (Return st, w) /\
    check_actions (actions ap) st (Argparse.ns st) [] = inr (ns, []) /\
    extras st = [] /\ w' = w.
Proof.
  unfold parse_args, Argparse.parse_args.
  destruct (classify ap args) as [msg|items] eqn:Hc; [discriminate|].
  fold parse_items. fold check_actions. unfold bind.
  destruct (parse_items ap items (PState (initial_namespace ap) [] []) w)
    as [[st| |] w1] eqn:Hrun; try discriminate.
  pose proof (parse_items_returns_same_world _ _ _ _ _ Hrun) as ->.
  destruct (check_actions (actions ap) st (Argparse.ns st) []) as [msg|[ns' [|r req]]] eqn:Hk;
    try discriminate.
  destruct (extras st) eqn:He; [|discriminate].
  intros [= <- <-]. exists items, st. repeat split; assumption.
Qed.

(** A command line with a string no option can take does not parse. *)
Lemma parse_args_unrecognized (args : list string) (w : world) (arg : string) :
  In arg args -> unrecognized ap arg = true ->
  (exists msg, parse_args ap args w = error_at msg w) \/
  (parse_args ap args w = (Exit 0, help_world (format_help ap) w) /\
   help_requested ap args = true).
Proof.
  intros Hin Hun.
  destruct (parse_args_ends py_int py_float str_repr format_usage format_help ap args w)
    as [[ns H]|[H|H]]; [|left; exact H|right; exact H].
  exfalso. fold parse_args in H.
  apply parse_args_returns in H as (items & st & Hc & Hrun & _ & He & _).
  apply (parse_items_leaves_extras (List.length items) items _ st w w (le_n _) Hrun);
    [|exact He].
  right. exact (classify_unrecognized ap args items arg Hc Hin Hun).
Qed.

(** With string defaults converted by [str], the closing loop leaves the
    namespace as it is and lists the required actions that were not
    seen. *)
Lemma check_actions_result (l : list action) (st : pstate) :
  (forall a s, In a l -> default_ a = Some (VStr s) -> type_ a = TStr) ->
  forall ns req,
    check_actions l st ns req
    = inr (ns, (req ++ List.map action_name
                         (List.filter (fun a => negb (seen_action st a) && required a) l))%list).
Proof.
  induction l as [|a l IH]; intros Hstr ns req; simpl.
  - rewrite List.app_nil_r. reflexivity.
  - assert (Hl : forall a0 s, In a0 l -> default_ a0 = Some (VStr s) -> type_ a0 = TStr).
    { intros a0 s H. apply Hstr. right. exact H. }
    specialize (IH Hl).
    destruct (seen_action st a); simpl; [apply IH|].
    destruct (required a); simpl.
    { unfold check_actions in *. rewrite IH, <- List.app_assoc. reflexivity. }
    destruct (dest a) as [d|]; [|apply IH].
    destruct (default_ a) as [[| | | |s|]|] eqn:Ed; try apply IH.
    destruct (ns_lookup ns d) as [[| | | |s'|]|] eqn:El; try apply IH.
    destruct (String.eqb s s') eqn:Es; [|apply IH].
    apply String.eqb_eq in Es. subst s'.
    unfold Argparse.get_value, apply_type.
    rewrite (Hstr a s (or_introl eq_refl) Ed).
    rewrite (setattr_same ns d (VStr s) El). apply IH.
Qed.

(** One round of the loop for a store option whose value does not
    convert. *)
Lemma parse_items_store_fail (arg : string) (a : action) (os v msg : string)
    (rest : list (string * argclass)) (st : pstate) (w : world) :
  kind a = StoreAction ->
  String.eqb v "--" = false ->
  Argparse.get_value py_int py_float str_repr a v = inl msg ->
  parse_items ap ((arg, ClsO (Some a, os, None)) :: (v, ClsA) :: rest) st w
  = error_at msg w.
Proof.
  intros K Hv Hval.
  unfold parse_items. simpl.
  fold (Argparse.consume_optional str_repr ap a os None ((v, ClsA) :: rest)).
  rewrite (consume_optional_store str_repr ap a os None _ K).
  unfold bind.
  fold (Argparse.take_actions py_int py_float str_repr format_usage format_help
          ap st [(a, [v], os)]).
  rewrite (take_actions_store_one py_int py_float str_repr format_usage format_help
             ap st a v os w K).
  unfold Argparse.get_values. simpl. rewrite Hv, K, Hval. reflexivity.
Qed.

End RunFacts.

(** ** [get_argv]: more on the schema *)

Lemma argument_parser_store_dest (a : action) :
  In a (actions argument_parser) -> kind a = StoreAction ->
  exists d, dest a = Some d /\ In d argument_names.
Proof.
  intros Hin. vm_compute in Hin.
  repeat (destruct Hin as [<-|Hin];
          [simpl; intros K; first [discriminate K | eexists; split; [reflexivity|simpl; auto 12]]|]).
  destruct Hin.
Qed.

Lemma argument_parser_dest_store (a : action) (d : string) :
  In a (actions argument_parser) -> dest a = Some d -> kind a = StoreAction.
Proof.
  intros Hin. vm_compute in Hin.
  repeat (destruct Hin as [<-|Hin]; [simpl; first [discriminate | reflexivity]|]).
  destruct Hin.
Qed.

(** Every flag of the schema, spelt out in full, selects its action. *)
Lemma argument_parser_flag (a : action) (flag : string) :
  In a (actions argument_parser) -> In flag (option_strings a) ->
  parse_optional argument_parser flag = inr (Some (Some a, flag, None)) /\
  String.eqb flag "--" = false.
Proof.
  intros Hin. vm_compute in Hin.
  repeat (destruct Hin as [<-|Hin];
          [simpl; intros [<-|[<-|[]]]; split; vm_compute; reflexivity|]).
  destruct Hin.
Qed.

Lemma filter_nil_weaken {A : Type} (f g : A -> bool) (l : list A) :
  (forall x, g x = true -> f x = true) ->
  List.filter f l = [] -> List.filter g l = [].
Proof.
  intros Hfg. induction l as [|x l IH]; simpl; [reflexivity|].
  destruct (f x) eqn:Ef; [discriminate|].
  destruct (g x) eqn:Eg; [rewrite (Hfg x Eg) in Ef; discriminate|]. exact IH.
Qed.

Section SchemaFacts.

Variable py_int : string -> option Z.
Variable py_float : string -> option float.
Variable str_repr : string -> string.
Variable format_usage : ArgumentParser -> string.
Variable format_help : ArgumentParser -> string.

Let get_argv := get_argv py_int py_float str_repr format_usage format_help.
Let parse_args := Argparse.parse_args py_int py_float str_repr format_usage format_help.
Let parse_items := Argparse.parse_items py_int py_float str_repr format_usage format_help.
Let apply_type := Argparse.apply_type py_int py_float.
Let usage := format_usage argument_parser.
Let help := format_help argument_parser.

(** X1. [get_argv] ends in one of three ways and never raises: it returns
    and leaves the process state alone; or it exits with status 2, the
    usage and one error line appended to the standard error stream; or,
    when a help option is on the command line, it exits with status 0,
    the help text appended to the standard output. *)
Theorem get_argv_ends (w : world) :
  (exists ns, get_argv w = (Return ns, w)) \/
  (exists msg,
      get_argv w = (Exit 2, error_world usage (prog argument_parser) msg w)) \/
  (get_argv w = (Exit 0, help_world help w) /\
   help_requested argument_parser (List.tl (sys_argv w)) = true).
Proof.
  exact (parse_args_ends py_int py_float str_repr format_usage format_help
           argument_parser (List.tl (sys_argv w)) w).
Qed.

(** X2. A namespace [get_argv] returns has exactly the ten attributes of
    the schema, in the order of the [add_argument] calls, so every
    attribute the other functions read is there. *)
Theorem get_argv_attributes (w w' : world) (ns : Namespace) :
  get_argv w = (Return ns, w') ->
  List.map fst ns = argument_names /\
  (forall name, In name argument_names -> exists v, getattr ns name = Return v).
Proof.
  intros Hrun.
  assert (Hkeys : List.map fst ns = argument_names).
  { apply (parse_args_returns py_int py_float str_repr format_usage format_help)
      in Hrun as (items & st & Hc & Hitems & Hk & _ & _).
    rewrite (check_actions_result py_int py_float str_repr (actions argument_parser) st
               argument_parser_string_defaults) in Hk.
    injection Hk as <- _.
    destruct (parse_items_run py_int py_float str_repr format_usage format_help
                argument_parser
                (fun st => List.map fst (Argparse.ns st) = argument_names) items)
      with (n := List.length items) (items := items)
           (st := PState (initial_namespace argument_parser) [] []) (w := w)
      as [(st' & H & Hst)|[[msg H]|[H _]]];
      try (rewrite H in Hitems; discriminate).
    - intros st0 s H. exact H.
    - intros arg a os ex st0 v Hitem K H.
      destruct (classify_items _ _ _ Hc arg _ Hitem) as [_ Hp].
      destruct (argument_parser_store_dest a (selected_action_in _ _ _ _ _ Hp) K)
        as (d & Hd & Hin).
      unfold after_store. simpl. rewrite Hd.
      rewrite setattr_keys; [exact H|]. rewrite H. exact Hin.
    - apply le_n.
    - apply List.incl_refl.
    - reflexivity.
    - rewrite H in Hitems. injection Hitems as <-. exact Hst. }
  split; [exact Hkeys|].
  intros name Hin. rewrite <- Hkeys in Hin.
  destruct (ns_lookup_of_key ns name Hin) as [v Hv].
  exists v. unfold getattr. rewrite Hv. reflexivity.
Qed.

(** X3. A misspelt option is never ignored: when the command line holds a
    string that looks like an option and matches no flag, or the
    separator [--], [get_argv] does not return. *)
Theorem get_argv_unrecognized_exits (w : world) (arg : string) :
  In arg (List.tl (sys_argv w)) ->
  unrecognized argument_parser arg = true ->
  (exists msg,
      get_argv w = (Exit 2, error_world usage (prog argument_parser) msg w)) \/
  (get_argv w = (Exit 0, help_world help w) /\
   help_requested argument_parser (List.tl (sys_argv w)) = true).
Proof.
  intros Hin Hun.
  exact (parse_args_unrecognized py_int py_float str_repr format_usage format_help
           argument_parser (List.tl (sys_argv w)) w arg Hin Hun).
Qed.

(** X5. The last occurrence wins: adding a flag and a value at the end of
    a command line that parses gives the same configuration with that
    option set to the converted value. *)
Theorem get_argv_last_value_wins
    (w w2 : world) (ns : Namespace) (a : action) (flag v d : string) (val : pyval) :
  get_argv w = (Return ns, w) ->
  In a (actions argument_parser) ->
  In flag (option_strings a) ->
  dest a = Some d ->
  is_argument argument_parser v = true ->
  apply_type (type_ a) v = Some val ->
  List.tl (sys_argv w2) = (List.tl (sys_argv w) ++ [flag; v])%list ->
  get_argv w2 = (Return (setattr ns d val), w2).
Proof.
  intros Hrun Ha Hflag Hd Hv Hval Hargs.
  pose proof (argument_parser_dest_store a d Ha Hd) as K.
  destruct (argument_parser_flag a flag Ha Hflag) as [Hp Hne].
  assert (Hnodash : forall s, In s (List.tl (sys_argv w)) -> String.eqb s "--" = false).
  { intros s Hs. destruct (String.eqb s "--") eqn:E; [|reflexivity]. exfalso.
    destruct (parse_args_unrecognized py_int py_float str_repr format_usage format_help
                argument_parser (List.tl (sys_argv w)) w s Hs) as [[msg H]|[H _]];
      [unfold unrecognized; rewrite E; reflexivity|..];
      unfold get_argv in Hrun; rewrite get_argv_parse_args, H in Hrun; discriminate. }
  apply (parse_args_returns py_int py_float str_repr format_usage format_help)
    in Hrun as (items & st & Hc & Hitems & Hk & He & _).
  rewrite (check_actions_result py_int py_float str_repr (actions argument_parser) st
             argument_parser_string_defaults) in Hk.
  injection Hk as Hns Hreq.
  unfold get_argv. rewrite get_argv_parse_args, Hargs.
  unfold Argparse.parse_args.
  rewrite (classify_app argument_parser _ [flag; v] items Hc Hnodash).
  rewrite (classify_cons_option argument_parser flag _ _ Hne Hp).
  rewrite (classify_cons_argument argument_parser v _ Hv).
  change (classify argument_parser []) with (@inr string _ (@nil (string * argclass))).
  cbv iota beta. unfold bind.
  rewrite (parse_items_app py_int py_float str_repr format_usage format_help
             argument_parser (List.length items) items _ _ st w w w2 (le_n _) Hitems).
  rewrite (parse_items_store_next py_int py_float str_repr format_usage format_help
             argument_parser flag a flag v val [] st w2 K
             (is_argument_not_dashes _ _ Hv));
    [|unfold Argparse.get_value; fold apply_type; rewrite Hval; reflexivity].
  simpl Argparse.parse_items. unfold ret.
  rewrite (check_actions_result py_int py_float str_repr (actions argument_parser)
             (after_store st a val) argument_parser_string_defaults).
  rewrite (filter_nil_weaken
             (fun a0 => negb (seen_action st a0) && required a0) _
             (actions argument_parser)).
  - simpl. rewrite He. unfold after_store. simpl. rewrite Hd, Hns. reflexivity.
  - intros a0. unfold seen_action, after_store. simpl.
    destruct (String.eqb (action_name a0) (action_name a)); simpl; [discriminate|].
    intros H. exact H.
  - simpl in Hreq. apply List.map_eq_nil in Hreq. exact Hreq.
Qed.

(** X6. A help flag in first position wins over everything after it:
    unless a later string is an ambiguous abbreviation, the help text is
    printed and the process exits with status 0, whatever else is missing
    or invalid. *)
Theorem get_argv_help_first (w : world) (p flag : string) (rest : list string) :
  sys_argv w = p :: flag :: rest ->
  In flag ["-h"; "--help"] ->
  (forall s, In s rest -> ambiguous argument_parser s = false) ->
  get_argv w = (Exit 0, help_world help w).
Proof.
  intros Hargv Hflag Hrest.
  destruct (classify_not_ambiguous argument_parser rest Hrest) as [items Hc].
  unfold get_argv. rewrite get_argv_parse_args, Hargv. simpl List.tl.
  unfold Argparse.parse_args.
  simpl in Hflag. destruct Hflag as [<-|[<-|[]]].
  - rewrite (classify_cons_option argument_parser "-h" _ _ eq_refl eq_refl), Hc.
    reflexivity.
  - rewrite (classify_cons_option argument_parser "--help" _ _ eq_refl eq_refl), Hc.
    reflexivity.
Qed.

(** X4. A value that the converter of a typed option rejects stops the
    parser: after the three required options, an integer option followed
    by a string [int] refuses, or the learning rate followed by one
    [float] refuses, exits with status 2 and names the option and the
    value. *)
Theorem get_argv_invalid_value (w : world) (p a d m flag v : string) :
  sys_argv w = [p; "-a"; a; "-d"; d; "-mn"; m; flag; v] ->
  is_argument argument_parser a = true ->
  is_argument argument_parser d = true ->
  is_argument argument_parser m = true ->
  is_argument argument_parser v = true ->
  let fails name type :=
    get_argv w
    = (Exit 2,
       error_world usage (prog argument_parser)
         ("argument " +:+ name +:+ ": invalid " +:+ type +:+ " value: " +:+ str_repr v) w) in
  (py_int v = None ->
   (In flag ["-i"; "--image-size"] -> fails "-i/--image-size" "int") /\
   (In flag ["-e"; "--epochs"] -> fails "-e/--epochs" "int") /\
   (In flag ["-b"; "--batch-size"] -> fails "-b/--batch-size" "int")) /\
  (py_float v = None ->
   In flag ["-etha"; "--etha"] -> fails "-etha/--etha" "float").
Proof.
  intros Hargv Ha Hd Hm Hv fails.
  assert (Hstep : forall act msg,
             parse_optional argument_parser flag = inr (Some (Some act, flag, None)) ->
             String.eqb flag "--" = false ->
             kind act = StoreAction ->
             Argparse.get_value py_int py_float str_repr act v = inl msg ->
             get_argv w
             = (Exit 2, error_world usage (prog argument_parser) msg w)).
  { intros act msg Hp Hdd K Hval.
    unfold get_argv. rewrite get_argv_parse_args, Hargv. simpl List.tl.
    unfold Argparse.parse_args.
    rewrite (classify_cons_option argument_parser "-a" _ _ eq_refl eq_refl).
    rewrite (classify_cons_argument argument_parser a _ Ha).
    rewrite (classify_cons_option argument_parser "-d" _ _ eq_refl eq_refl).
    rewrite (classify_cons_argument argument_parser d _ Hd).
    rewrite (classify_cons_option argument_parser "-mn" _ _ eq_refl eq_refl).
    rewrite (classify_cons_argument argument_parser m _ Hm).
    rewrite (classify_cons_option argument_parser flag _ _ Hdd Hp).
    rewrite (classify_cons_argument argument_parser v _ Hv).
    change (classify argument_parser []) with (@inr string _ (@nil (string * argclass))).
    cbv iota beta. unfold bind.
    erewrite (parse_items_store_next py_int py_float str_repr format_usage format_help);
      [|reflexivity|exact (is_argument_not_dashes _ _ Ha)|reflexivity].
    erewrite (parse_items_store_next py_int py_float str_repr format_usage format_help);
      [|reflexivity|exact (is_argument_not_dashes _ _ Hd)|reflexivity].
    erewrite (parse_items_store_next py_int py_float str_repr format_usage format_help);
      [|reflexivity|exact (is_argument_not_dashes _ _ Hm)|reflexivity].
    rewrite (parse_items_store_fail py_int py_float str_repr format_usage format_help
               argument_parser flag act flag v msg [] _ w K
               (is_argument_not_dashes _ _ Hv) Hval).
    reflexivity. }
  split.
  - intros Hint.
    repeat split; intros Hflag; unfold fails; simpl in Hflag;
      destruct Hflag as [<-|[<-|[]]];
      apply (Hstep _ _ eq_refl eq_refl eq_refl);
      unfold Argparse.get_value, Argparse.apply_type; simpl; rewrite Hint; reflexivity.
  - intros Hfloat Hflag. unfold fails. simpl in Hflag.
    destruct Hflag as [<-|[<-|[]]];
      apply (Hstep _ _ eq_refl eq_refl eq_refl);
      unfold Argparse.get_value, Argparse.apply_type; simpl; rewrite Hfloat; reflexivity.
Qed.

(** X11. From the command line to the model: with [-a a -d d -mn m], the
    architecture option alone decides what [build_architecture] does with
    the parsed configuration. One of the four dispatched names builds its
    model; any other name raises at [return model]. *)
Theorem command_line_selects_model (w : world) (p a d m : string) (wd h dp c : Z) :
  sys_argv w = [p; "-a"; a; "-d"; d; "-mn"; m] ->
  is_argument argument_parser a = true ->
  is_argument argument_parser d = true ->
  is_argument argument_parser m = true ->
  let run := bind get_argv (fun argv => lift (build_architecture argv wd h dp c)) w in
  snd run = w /\
  (a = "lenet" -> fst run = Return (LeNet_build wd h dp c)) /\
  (a = "karpathynet" -> fst run = Return (KarpathyNet_build wd h dp c true)) /\
  (a = "minivgg" -> fst run = Return (MiniVGGNet_build wd h dp c)) /\
  (a = "vgg16" -> fst run = Return VGG16_build) /\
  (~ In a dispatched_names -> fst run = Raise unbound_model).
Proof.
  intros Hargv Ha Hd Hm run.
  assert (Hrun : run = (build_architecture (default_namespace a d m) wd h dp c, w)).
  { unfold run, bind, get_argv.
    rewrite (get_argv_required_only py_int py_float str_repr format_usage format_help
               w p a d m Hargv Ha Hd Hm).
    reflexivity. }
  rewrite Hrun. simpl fst. simpl snd.
  split; [reflexivity|].
  repeat split; try (intros ->; reflexivity).
  intros Hno. apply (build_architecture_unknown _ a); [reflexivity|exact Hno].
Qed.

End SchemaFacts.

(** ** [load_images_and_labels]: the range of the normalised data *)

Lemma is_uint8_in_range (z : Z) : is_uint8 z -> In z uint8_range.
Proof.
  intros [H0 H255]. unfold uint8_range. apply List.in_map_iff.
  exists (Z.to_nat z). split; [lia|]. apply List.in_seq. lia.
Qed.

Lemma normalized_uint8_in_unit_interval (z : Z) :
  is_uint8 z ->
  in_unit_interval (PrimFloat.div (float_of_uint8 z) 255%float) = true.
Proof.
  intros Hz.
  assert (Hall : List.forallb
                   (fun z => in_unit_interval (PrimFloat.div (float_of_uint8 z) 255%float))
                   uint8_range = true) by (vm_compute; reflexivity).
  rewrite List.forallb_forall in Hall. apply Hall. apply is_uint8_in_range. exact Hz.
Qed.

Lemma normalized_uint8_increasing (z z' : Z) :
  is_uint8 z -> is_uint8 z' -> z < z' ->
  PrimFloat.ltb (PrimFloat.div (float_of_uint8 z) 255%float)
                (PrimFloat.div (float_of_uint8 z') 255%float) = true.
Proof.
  intros Hz Hz' Hlt.
  assert (Hall : List.forallb
                   (fun a => List.forallb
                      (fun b => implb (Z.ltb a b)
                                  (PrimFloat.ltb
                                     (PrimFloat.div (float_of_uint8 a) 255%float)
                                     (PrimFloat.div (float_of_uint8 b) 255%float)))
                      uint8_range)
                   uint8_range = true) by (vm_compute; reflexivity).
  rewrite List.forallb_forall in Hall.
  specialize (Hall z (is_uint8_in_range z Hz)).
  rewrite List.forallb_forall in Hall.
  specialize (Hall z' (is_uint8_in_range z' Hz')).
  apply Z.ltb_lt in Hlt. rewrite Hlt in Hall. exact Hall.
Qed.

Section LoaderRange.

Variable SimpleDatasetLoader_load :
  list preprocessor -> pyval -> list string -> Z -> M (ndarray * list string).

(** X7. Normalising 8-bit data gives a binary64 array of the same shape
    whose every element lies between 0.0 and 1.0, and brighter pixels stay
    strictly brighter. *)
Theorem load_images_and_labels_unit_interval
    (argv : Namespace) (imagepaths : list string) (normalize : option pyval)
    (image_size grayscale : pyval) (sh : list nat) (pixels : list Z)
    (labels : list string) (w w1 : world) :
  getattr argv "image_size" = Return image_size ->
  getattr argv "grayscale" = Return grayscale ->
  SimpleDatasetLoader_load
    [AspectAwarePreprocessor image_size image_size; ImageToArrayPreprocessor]
    grayscale imagepaths 500 (snd (print "[INFO] loading images..." w))
    = (Return (UInt8Array sh pixels, labels), w1) ->
  Forall is_uint8 pixels ->
  py_truthy (match normalize with Some v => v | None => VBool true end) = true ->
  let scaled z := PrimFloat.div (float_of_uint8 z) 255%float in
  fst (load_images_and_labels SimpleDatasetLoader_load argv imagepaths normalize w)
    = Return (Float64Array sh (List.map scaled pixels), labels) /\
  Forall (fun x => in_unit_interval x = true) (List.map scaled pixels) /\
  (forall z z', In z pixels -> In z' pixels -> z < z' ->
                PrimFloat.ltb (scaled z) (scaled z') = true).
Proof.
  intros Hsize Hgray Hload Hpix Hflag scaled.
  split; [|split].
  - unfold load_images_and_labels, bind, lift.
    rewrite Hsize. simpl in Hload. simpl. rewrite Hgray, Hload, Hflag.
    unfold true_divide. simpl. rewrite List.map_map. reflexivity.
  - apply List.Forall_map. eapply List.Forall_impl; [|exact Hpix].
    intros z Hz. apply normalized_uint8_in_unit_interval. exact Hz.
  - intros z z' Hz Hz'. rewrite List.Forall_forall in Hpix.
    apply normalized_uint8_increasing; apply Hpix; assumption.
Qed.

End LoaderRange.

(** ** [write_training_report]: what a failed or a finished run leaves *)











Section ReportEdges.

Variable str_repr : string -> string.
Variable float_repr : float -> string.

Let write_report := write_training_report str_repr float_repr.
Let path_of := report_path str_repr float_repr.





(** X9. The call fails before it touches anything in two cases: the
    configuration has no [model_name], an [AttributeError]; or [open]
    refuses the path, and the error is the one [open] raised. In both the
    process state is as before: no file is created or truncated. When the
    file can be opened, what it held before plays no part in what the call
    does or leaves. *)
Theorem write_training_report_unwritable
    (argv : Namespace) (modelparams : ModelParams) (report : string) (w : world) :
  (ns_lookup argv "model_name" = None ->
   exists e, exn_class e = "AttributeError" /\
             write_report argv modelparams report w = (Raise e, w)) /\
  (forall model_name,
      getattr argv "model_name" = Return model_name ->
      (forall e, open_failure w (path_of model_name) = Some e ->
                 write_report argv modelparams report w = (Raise e, w)) /\
      (open_failure w (path_of model_name) = None ->
       forall old,
         write_report argv modelparams report (set_file w (path_of model_name) old)
         = write_report argv modelparams report w)).
Proof.
  split.
  - intros Hname. eexists. split; [|].
    2:{ unfold write_report, write_training_report, bind, lift, getattr.
        rewrite Hname. reflexivity. }
    reflexivity.
  - intros model_name Hname. split.
    + intros e He.
      unfold write_report, write_training_report, bind, lift, open_w.
      rewrite Hname. fold (path_of model_name). rewrite He. reflexivity.
    + intros Hopen old.
      unfold write_report, write_training_report.
      rewrite !(bind_return _ _ _ _ model_name)
        by (unfold lift; rewrite Hname; reflexivity).
      fold (path_of model_name).
      assert (Hsame : open_w (path_of model_name) (set_file w (path_of model_name) old)
                      = open_w (path_of model_name) w).
      { unfold open_w.
        change (open_failure (set_file w (path_of model_name) old) (path_of model_name))
          with (open_failure w (path_of model_name)).
        rewrite Hopen. unfold set_file.
        cbn [sys_argv stdout stderr clock open_error files].
        rewrite insert_insert_eq. reflexivity. }
      unfold bind at 1. rewrite Hsame. reflexivity.
Qed.


End ReportEdges.

(** ** The added properties at concrete inputs *)

Lemma get_argv_attributes_witness :
  get_argv ascii_int ascii_float quoted sample_usage sample_help
    (sample_world ["trainer/main.py"; "-a"; "lenet"; "-d"; "data"; "-mn"; "m1"; "-e5"])
  = (Return (setattr (default_namespace "lenet" "data" "m1") "epochs" (VInt 5)),
     sample_world ["trainer/main.py"; "-a"; "lenet"; "-d"; "data"; "-mn"; "m1"; "-e5"]) /\
  List.map fst (setattr (default_namespace "lenet" "data" "m1") "epochs" (VInt 5))
  = argument_names.
Proof.
  assert (Hrun : get_argv ascii_int ascii_float quoted sample_usage sample_help
                   (sample_world ["trainer/main.py"; "-a"; "lenet"; "-d"; "data";
                                  "-mn"; "m1"; "-e5"])
                 = (Return (setattr (default_namespace "lenet" "data" "m1") "epochs" (VInt 5)),
                    sample_world ["trainer/main.py"; "-a"; "lenet"; "-d"; "data";
                                  "-mn"; "m1"; "-e5"]))
    by (vm_compute; reflexivity).
  split; [exact Hrun|].
  exact (proj1 (get_argv_attributes ascii_int ascii_float quoted sample_usage sample_help
                  _ _ _ Hrun)).
Defined.

Lemma get_argv_unrecognized_exits_witness :
  In "--image_size" ["-a"; "lenet"; "-d"; "data"; "-mn"; "m1"; "--image_size"; "5"] /\
  unrecognized argument_parser "--image_size" = true /\
  ((exists msg,
       get_argv ascii_int ascii_float quoted sample_usage sample_help
         (sample_world ["trainer/main.py"; "-a"; "lenet"; "-d"; "data"; "-mn"; "m1";
                        "--image_size"; "5"])
       = (Exit 2,
          error_world (sample_usage argument_parser) (prog argument_parser) msg
            (sample_world ["trainer/main.py"; "-a"; "lenet"; "-d"; "data"; "-mn"; "m1";
                           "--image_size"; "5"]))) \/
   (get_argv ascii_int ascii_float quoted sample_usage sample_help
      (sample_world ["trainer/main.py"; "-a"; "lenet"; "-d"; "data"; "-mn"; "m1";
                     "--image_size"; "5"])
    = (Exit 0,
       help_world (sample_help argument_parser)
         (sample_world ["trainer/main.py"; "-a"; "lenet"; "-d"; "data"; "-mn"; "m1";
                        "--image_size"; "5"])) /\
    help_requested argument_parser
      ["-a"; "lenet"; "-d"; "data"; "-mn"; "m1"; "--image_size"; "5"] = true)).
Proof.
  assert (H1 : In "--image_size"
                 (List.tl (sys_argv
                    (sample_world ["trainer/main.py"; "-a"; "lenet"; "-d"; "data";
                                   "-mn"; "m1"; "--image_size"; "5"]))))
    by (simpl; auto 10).
  assert (H2 : unrecognized argument_parser "--image_size" = true)
    by (vm_compute; reflexivity).
  split; [exact H1|]. split; [exact H2|].
  exact (get_argv_unrecognized_exits ascii_int ascii_float quoted sample_usage sample_help
           _ "--image_size" H1 H2).
Defined.

Lemma get_argv_invalid_value_witness :
  ascii_int "abc" = None /\
  get_argv ascii_int ascii_float quoted sample_usage sample_help
    (sample_world ["trainer/main.py"; "-a"; "lenet"; "-d"; "data"; "-mn"; "m1";
                   "--image-size"; "abc"])
  = (Exit 2,
     error_world (sample_usage argument_parser) (prog argument_parser)
       "argument -i/--image-size: invalid int value: 'abc'"
       (sample_world ["trainer/main.py"; "-a"; "lenet"; "-d"; "data"; "-mn"; "m1";
                      "--image-size"; "abc"])).
Proof.
  split; [reflexivity|].
  refine (proj1 (proj1 (get_argv_invalid_value ascii_int ascii_float quoted
                          sample_usage sample_help
                          (sample_world ["trainer/main.py"; "-a"; "lenet"; "-d"; "data";
                                         "-mn"; "m1"; "--image-size"; "abc"])
                          "trainer/main.py" "lenet" "data" "m1" "--image-size" "abc"
                          eq_refl eq_refl eq_refl eq_refl eq_refl) eq_refl) _).
  simpl. auto.
Defined.

Lemma get_argv_last_value_wins_witness :
  get_argv ascii_int ascii_float quoted sample_usage sample_help
    (sample_world ["trainer/main.py"; "-a"; "lenet"; "-d"; "data"; "-mn"; "m1";
                   "-e"; "5"; "--epochs"; "7"])
  = (Return (setattr (setattr (default_namespace "lenet" "data" "m1") "epochs" (VInt 5))
               "epochs" (VInt 7)),
     sample_world ["trainer/main.py"; "-a"; "lenet"; "-d"; "data"; "-mn"; "m1";
                   "-e"; "5"; "--epochs"; "7"]).
Proof.
  apply (get_argv_last_value_wins ascii_int ascii_float quoted sample_usage sample_help
           (sample_world ["trainer/main.py"; "-a"; "lenet"; "-d"; "data"; "-mn"; "m1";
                          "-e"; "5"])
           _ _
           (Action ["-e"; "--epochs"] (Some "epochs") StoreAction false (Some (VInt 30)) TInt)
           "--epochs" "7" "epochs" (VInt 7)).
  - vm_compute. reflexivity.
  - vm_compute. auto 12.
  - simpl. auto.
  - reflexivity.
  - reflexivity.
  - reflexivity.
  - reflexivity.
Defined.

Lemma get_argv_help_first_witness :
  get_argv ascii_int ascii_float quoted sample_usage sample_help
    (sample_world ["trainer/main.py"; "--help"; "-i"; "abc"; "--image_size"])
  = (Exit 0,
     help_world (sample_help argument_parser)
       (sample_world ["trainer/main.py"; "--help"; "-i"; "abc"; "--image_size"])).
Proof.
  apply (get_argv_help_first ascii_int ascii_float quoted sample_usage sample_help
           _ "trainer/main.py" "--help" ["-i"; "abc"; "--image_size"]).
  - reflexivity.
  - simpl. auto.
  - intros s Hs. simpl in Hs.
    destruct Hs as [<-|[<-|[<-|[]]]]; vm_compute; reflexivity.
Defined.

Lemma command_line_selects_model_witness :
  bind (get_argv ascii_int ascii_float quoted sample_usage sample_help)
       (fun argv => lift (build_architecture argv 28 28 1 10))
       (sample_world ["trainer/main.py"; "-a"; "lenet"; "-d"; "data"; "-mn"; "m1"])
  = (Return (LeNet_build 28 28 1 10),
     sample_world ["trainer/main.py"; "-a"; "lenet"; "-d"; "data"; "-mn"; "m1"]).
Proof.
  pose proof (command_line_selects_model ascii_int ascii_float quoted sample_usage
                sample_help
                (sample_world ["trainer/main.py"; "-a"; "lenet"; "-d"; "data"; "-mn"; "m1"])
                "trainer/main.py" "lenet" "data" "m1" 28 28 1 10
                eq_refl eq_refl eq_refl eq_refl) as (Hw & Hlenet & _).
  specialize (Hlenet eq_refl).
  destruct (bind _ _ _) as [o w']. simpl in *. subst. reflexivity.
Defined.

Lemma load_images_and_labels_unit_interval_witness :
  Forall is_uint8 [255; 255; 255; 255; 0; 17; 128; 255] /\
  Forall (fun x => in_unit_interval x = true)
    (List.map (fun z => PrimFloat.div (float_of_uint8 z) 255%float)
       [255; 255; 255; 255; 0; 17; 128; 255]).
Proof.
  assert (Hpix : Forall is_uint8 [255; 255; 255; 255; 0; 17; 128; 255])
    by (repeat constructor; unfold is_uint8; lia).
  split; [exact Hpix|].
  exact (proj1 (proj2
    (load_images_and_labels_unit_interval sample_loader
       (default_namespace "lenet" "data" "m1") ["data/cats/1.png"; "data/dogs/2.png"]
       None (VInt 64) (VBool false) [2; 2; 2; 1]%nat
       [255; 255; 255; 255; 0; 17; 128; 255] ["cats"; "dogs"]
       (sample_world ["trainer/main.py"])
       (snd (print "[INFO] loading images..." (sample_world ["trainer/main.py"])))
       eq_refl eq_refl eq_refl Hpix eq_refl))).
Defined.



(** ** [build_architecture]: which configurations build a model *)

(** X12. [build_architecture] returns a model exactly when the
    architecture attribute is a string equal to one of the four dispatched
    names; it reads no other attribute, and the dimensions play no part in
    whether it succeeds. *)
Theorem build_architecture_succeeds_iff (argv : Namespace) (wd h dp c : Z) :
  (exists m, build_architecture argv wd h dp c = Return m) <->
  (exists a, ns_lookup argv "architecture" = Some (VStr a) /\ In a dispatched_names).
Proof.
  unfold build_architecture, getattr, build_architecture_local, py_eq_str, dispatched_names.
  split.
  - intros [m Hm].
    destruct (ns_lookup argv "architecture") as [v|]; [|discriminate Hm].
    destruct v as [|b|z|f|s|xs]; simpl in Hm; try discriminate Hm.
    exists s. split; [reflexivity|].
    destruct (String.eqb s "lenet") eqn:E0;
      [apply String.eqb_eq in E0; subst s; simpl; auto|].
    destruct (String.eqb s "karpathynet") eqn:E1;
      [apply String.eqb_eq in E1; subst s; simpl; auto|].
    destruct (String.eqb s "minivgg") eqn:E2;
      [apply String.eqb_eq in E2; subst s; simpl; auto|].
    destruct (String.eqb s "vgg16") eqn:E3;
      [apply String.eqb_eq in E3; subst s; simpl; auto|].
    discriminate Hm.
  - intros (a & Ha & Hin). rewrite Ha. simpl in Hin.
    destruct Hin as [<-|[<-|[<-|[<-|[]]]]]; simpl; eexists; reflexivity.
Qed.

(** ** [load_images_and_labels]: edges *)

Section LoaderEdges.

Variable SimpleDatasetLoader_load :
  list preprocessor -> pyval -> list string -> Z -> M (ndarray * list string).

Let load := load_images_and_labels SimpleDatasetLoader_load.

(** X13. Whatever the element type of the loaded array and whatever the
    flag, the call keeps the labels, the shape and the number of elements
    of what the loader gave. With a true flag the data comes back as a
    binary64 array; with a false one it is the loader's array itself and
    nothing more is printed. *)
Theorem load_images_and_labels_keeps_shape
    (argv : Namespace) (imagepaths : list string) (normalize : option pyval)
    (image_size grayscale : pyval) (data : ndarray) (labels : list string)
    (w w1 : world) :
  getattr argv "image_size" = Return image_size ->
  getattr argv "grayscale" = Return grayscale ->
  SimpleDatasetLoader_load
    [AspectAwarePreprocessor image_size image_size; ImageToArrayPreprocessor]
    grayscale imagepaths 500 (snd (print "[INFO] loading images..." w))
    = (Return (data, labels), w1) ->
  let flag := py_truthy (match normalize with Some v => v | None => VBool true end) in
  exists data',
    fst (load argv imagepaths normalize w) = Return (data', labels) /\
    shape data' = shape data /\
    List.length (elements data') = List.length (elements data) /\
    (flag = true ->
     (exists l, data' = Float64Array (shape data) l) /\
     stdout (snd (load argv imagepaths normalize w))
     = stdout w1 +:+ "[INFO] normalizing data..." +:+ nl) /\
    (flag = false -> data' = data /\ snd (load argv imagepaths normalize w) = w1).
Proof.
  intros Hsize Hgray Hload flag.
  assert (Hrun : load argv imagepaths normalize w
                 = if flag
                   then (Return (true_divide (astype_float data) 255%float, labels),
                         snd (print "[INFO] normalizing data..." w1))
                   else (Return (data, labels), w1)).
  { unfold load, load_images_and_labels, bind, lift.
    rewrite Hsize. simpl in Hload. simpl. rewrite Hgray, Hload.
    fold flag. destruct flag; reflexivity. }
  rewrite Hrun. destruct flag.
  - exists (true_divide (astype_float data) 255%float).
    split; [reflexivity|].
    destruct data as [sh l|sh l|sh l]; simpl;
      (split; [reflexivity|]);
      (split; [now rewrite ?List.length_map|]);
      (split; [intros _; split; [eexists; reflexivity|reflexivity]|discriminate]).
  - exists data. split; [reflexivity|]. split; [reflexivity|]. split; [reflexivity|].
    split; [discriminate|]. intros _. split; reflexivity.
Qed.

(** X14. A configuration without the attributes the loader reads fails
    with [AttributeError] and the images are never loaded: without
    [image_size], before anything is printed; with it but without
    [grayscale], after the first progress line. *)
Theorem load_images_and_labels_missing_attribute
    (argv : Namespace) (imagepaths : list string) (normalize : option pyval)
    (w : world) :
  (ns_lookup argv "image_size" = None ->
   exists e, exn_class e = "AttributeError" /\
             load argv imagepaths normalize w = (Raise e, w)) /\
  (ns_lookup argv "image_size" <> None ->
   ns_lookup argv "grayscale" = None ->
   exists e, exn_class e = "AttributeError" /\
             load argv imagepaths normalize w
             = (Raise e, snd (print "[INFO] loading images..." w))).
Proof.
  split.
  - intros Hsize. eexists. split; [|].
    2:{ unfold load, load_images_and_labels, bind, lift, getattr.
        rewrite Hsize. reflexivity. }
    reflexivity.
  - intros Hsize Hgray. eexists. split; [|].
    2:{ unfold load, load_images_and_labels, bind, lift, getattr.
        destruct (ns_lookup argv "image_size") as [v|]; [|contradiction].
        simpl. rewrite Hgray. reflexivity. }
    reflexivity.
Qed.

End LoaderEdges.

Lemma build_architecture_succeeds_iff_witness :
  (exists m, build_architecture (default_namespace "minivgg" "data" "m1") 32 32 3 10
             = Return m) /\
  ~ (exists m, build_architecture [("architecture", VList [])] 32 32 3 10 = Return m).
Proof.
  split.
  - apply (proj2 (build_architecture_succeeds_iff
                    (default_namespace "minivgg" "data" "m1") 32 32 3 10)).
    exists "minivgg". split; [reflexivity|simpl; auto].
  - intros H.
    apply (proj1 (build_architecture_succeeds_iff
                    [("architecture", VList [])] 32 32 3 10)) in H.
    destruct H as (a & Ha & _). discriminate Ha.
Defined.

Lemma load_images_and_labels_keeps_shape_witness :
  exists data',
    fst (load_images_and_labels
           (fun _ _ _ _ => ret (Float32Array [1; 2]%nat [0.5; 1]%float, ["cats"]))
           (default_namespace "lenet" "data" "m1") ["data/cats/1.png"] (Some (VInt 0))
           (sample_world ["trainer/main.py"]))
    = Return (data', ["cats"]) /\
    data' = Float32Array [1; 2]%nat [0.5; 1]%float.
Proof.
  destruct (load_images_and_labels_keeps_shape
              (fun _ _ _ _ => ret (Float32Array [1; 2]%nat [0.5; 1]%float, ["cats"]))
              (default_namespace "lenet" "data" "m1") ["data/cats/1.png"] (Some (VInt 0))
              (VInt 64) (VBool false) (Float32Array [1; 2]%nat [0.5; 1]%float) ["cats"]
              (sample_world ["trainer/main.py"])
              (snd (print "[INFO] loading images..." (sample_world ["trainer/main.py"])))
              eq_refl eq_refl eq_refl)
    as (data' & Hrun & _ & _ & _ & Hsame).
  exists data'. split; [exact Hrun|].
  exact (proj1 (Hsame eq_refl)).
Defined.

Lemma load_images_and_labels_missing_attribute_witness :
  exists e,
    exn_class e = "AttributeError" /\
    load_images_and_labels sample_loader [("image_size", VInt 64)] [] None
      (sample_world ["trainer/main.py"])
    = (Raise e, snd (print "[INFO] loading images..." (sample_world ["trainer/main.py"]))).
Proof.
  apply (proj2 (load_images_and_labels_missing_attribute sample_loader
                  [("image_size", VInt 64)] [] None (sample_world ["trainer/main.py"]))).
  - discriminate.
  - reflexivity.
Defined.

(** ** [get_argv]: the boolean options *)

Lemma classify_tokens (ap : ArgumentParser) (args : list string)
    (items : list (string * argclass)) :
  classify ap args = inr items -> List.map fst items = args.
Proof.
  revert items. induction args as [|s rest IH]; simpl; intros items H.
  - injection H as <-. reflexivity.
  - destruct (String.eqb s "--").
    + injection H as <-. simpl. f_equal. rewrite List.map_map. simpl.
      apply List.map_id.
    + destruct (parse_optional ap s) as [msg|cls]; [discriminate|].
      destruct (classify ap rest) as [msg|items'] eqn:Ec; [discriminate|].
      injection H as <-. simpl. f_equal. apply IH. reflexivity.
Qed.

Lemma classify_option_item (ap : ArgumentParser) (args : list string)
    (items : list (string * argclass)) (arg : string) (t : option_tuple) :
  classify ap args = inr items ->
  (forall s, In s args -> String.eqb s "--" = false) ->
  In arg args -> parse_optional ap arg = inr (Some t) ->
  In (arg, ClsO t) items.
Proof.
  revert items. induction args as [|s rest IH]; simpl; intros items H Hno Hin Hp;
    [destruct Hin|].
  rewrite (Hno s (or_introl eq_refl)) in H.
  destruct (parse_optional ap s) as [msg|cls] eqn:Es; [discriminate|].
  destruct (classify ap rest) as [msg|items'] eqn:Ec; [discriminate|].
  injection H as <-. destruct Hin as [->|Hin].
  - left. rewrite Hp in Es. injection Es as <-. reflexivity.
  - right. apply IH; [reflexivity|intros s' H'; apply Hno; right; exact H'|exact Hin|exact Hp].
Qed.

Section ValueFacts.

Variable py_int : string -> option Z.
Variable py_float : string -> option float.
Variable str_repr : string -> string.
Variable format_usage : ArgumentParser -> string.
Variable format_help : ArgumentParser -> string.
Variable ap : ArgumentParser.

Let error_at {A} (msg : string) (w : world) : outcome A * world :=
  (Exit 2, error_world (format_usage ap) (prog ap) msg w).
Let parse_items := Argparse.parse_items py_int py_float str_repr format_usage format_help.
Let get_values := Argparse.get_values py_int py_float str_repr.

(** One round of the loop on a store option: the value stored is what
    [_get_values] makes of the attached string or of the next one. *)
Lemma parse_items_store_value (arg : string) (a : action) (os : string)
    (ex : option string) (rest : list (string * argclass)) (st : pstate) (w : world) :
  kind a = StoreAction ->
  let run := parse_items ap ((arg, ClsO (Some a, os, ex)) :: rest) st w in
  (exists msg, run = error_at msg w) \/
  (exists x v rest',
     ((ex = Some x /\ rest' = rest) \/ (ex = None /\ rest = (x, ClsA) :: rest')) /\
     get_values a [x] = inr v /\
     run = parse_items ap rest' (after_store st a v) w).
Proof.
  intros K. simpl. unfold parse_items. simpl.
  fold (Argparse.consume_optional str_repr ap a os ex rest).
  fold (Argparse.take_actions py_int py_float str_repr format_usage format_help).
  fold parse_items.
  rewrite (consume_optional_store str_repr ap a os ex rest K).
  destruct ex as [e|].
  - unfold bind.
    rewrite (take_actions_store_one py_int py_float str_repr format_usage format_help
               ap st a e os w K).
    fold get_values.
    destruct (get_values a [e]) as [msg|v] eqn:Ev.
    + left. exists msg. reflexivity.
    + right. exists e, v, rest.
      split; [left; split; reflexivity|]. split; [exact Ev|reflexivity].
  - destruct rest as [|[v0 [| |t]] rest']; try (left; eexists; reflexivity).
    unfold bind.
    rewrite (take_actions_store_one py_int py_float str_repr format_usage format_help
               ap st a v0 os w K).
    fold get_values.
    destruct (get_values a [v0]) as [msg|v] eqn:Ev.
    + left. exists msg. reflexivity.
    + right. exists v0, v, rest'.
      split; [right; split; reflexivity|]. split; [exact Ev|reflexivity].
Qed.

(** What [bool] makes of a value that reaches it. *)
Lemma get_values_boolean (a : action) (x : string) (v : pyval) :
  kind a = StoreAction -> type_ a = TBool ->
  x <> "" -> x <> "--" ->
  get_values a [x] = inr v -> v = VBool true.
Proof.
  intros K T Hne Hnd. unfold get_values, Argparse.get_values. simpl.
  destruct (String.eqb x "--") eqn:E; [apply String.eqb_eq in E; contradiction|].
  rewrite K. unfold Argparse.get_value, apply_type. rewrite T.
  rewrite (py_truthy_nonempty x Hne). intros [= <-]. reflexivity.
Qed.

(** A run that returns leaves a boolean option true if it was true before
    or one of the strings names it, as long as every value is a non-empty
    string. *)
Lemma parse_items_boolean (d : string) (n : nat) :
  forall (items : list (string * argclass)) (st st' : pstate) (w w' : world),
    (List.length items <= n)%nat ->
    (forall arg cls, In (arg, cls) items -> arg <> "" /\ arg <> "--") ->
    (forall arg a os e, In (arg, ClsO (Some a, os, Some e)) items -> e <> "" /\ e <> "--") ->
    (forall arg a os ex,
        In (arg, ClsO (Some a, os, ex)) items -> dest a = Some d -> type_ a = TBool) ->
    parse_items ap items st w = (Return st', w') ->
    ns_lookup (ns st) d = Some (VBool true) \/
    (exists arg a os ex, In (arg, ClsO (Some a, os, ex)) items /\ dest a = Some d) ->
    ns_lookup (ns st') d = Some (VBool true).
Proof.
  induction n as [|n IH]; intros items st st' w w' Hlen Htok Hex Hbool Hrun Hor.
  - destruct items; [|simpl in Hlen; lia]. injection Hrun as <- _.
    destruct Hor as [H|(arg & a & os & ex & [] & _)]. exact H.
  - destruct items as [|[arg cls] rest].
    { injection Hrun as <- _. destruct Hor as [H|(arg & a & os & ex & [] & _)]. exact H. }
    simpl in Hlen.
    assert (Htok' : forall arg0 cls0, In (arg0, cls0) rest -> arg0 <> "" /\ arg0 <> "--").
    { intros arg0 cls0 H. apply (Htok arg0 cls0). right. exact H. }
    assert (Hex' : forall arg0 a0 os0 e,
               In (arg0, ClsO (Some a0, os0, Some e)) rest -> e <> "" /\ e <> "--").
    { intros arg0 a0 os0 e H. apply (Hex arg0 a0 os0 e). right. exact H. }
    assert (Hbool' : forall arg0 a0 os0 ex0,
               In (arg0, ClsO (Some a0, os0, ex0)) rest -> dest a0 = Some d ->
               type_ a0 = TBool).
    { intros arg0 a0 os0 ex0 H. apply (Hbool arg0 a0 os0 ex0). right. exact H. }
    assert (Hextra : match cls with ClsO (Some _, _, _) => False | _ => True end ->
                     ns_lookup (ns st') d = Some (VBool true)).
    { intros Hcls.
      rewrite (parse_items_extra py_int py_float str_repr format_usage format_help)
        in Hrun by exact Hcls.
      apply (IH rest (add_extra st arg) st' w w'); [lia|exact Htok'|exact Hex'|exact Hbool'
                                                    |exact Hrun|].
      destruct Hor as [H|(arg0 & a0 & os0 & ex0 & Hin & Hd)]; [left; exact H|].
      right. exists arg0, a0, os0, ex0. split; [|exact Hd].
      destruct Hin as [[= _ ->]|Hin]; [simpl in Hcls; destruct Hcls|exact Hin]. }
    destruct cls as [| |[[[a|] os] ex]]; try (apply Hextra; exact Logic.I).
    clear Hextra.
    destruct (parse_items_option py_int py_float str_repr format_usage format_help
                ap arg a os ex rest st w)
      as [[msg Hm]|[[K Hh]|(K & _)]].
    { fold parse_items in Hm. rewrite Hm in Hrun. discriminate. }
    { fold parse_items in Hh. rewrite Hh in Hrun. discriminate. }
    destruct (parse_items_store_value arg a os ex rest st w K)
      as [[msg Hm]|(x & v & rest' & Hr & Hv & Hgo)].
    { rewrite Hm in Hrun. discriminate. }
    rewrite Hgo in Hrun.
    assert (Hsub : forall it, In it rest' -> In it rest).
    { intros it Hit. destruct Hr as [[_ ->]|[_ ->]]; [exact Hit|right; exact Hit]. }
    assert (Hx : x <> "" /\ x <> "--").
    { destruct Hr as [[-> _]|[_ ->]].
      - apply (Hex arg a os x). left. reflexivity.
      - apply (Htok x ClsA). right. left. reflexivity. }
    apply (IH rest' (after_store st a v) st' w w').
    + destruct Hr as [[_ ->]|[_ ->]]; simpl in *; lia.
    + intros arg0 cls0 H. apply (Htok' arg0 cls0). apply Hsub. exact H.
    + intros arg0 a0 os0 e H. apply (Hex' arg0 a0 os0 e). apply Hsub. exact H.
    + intros arg0 a0 os0 ex0 H. apply (Hbool' arg0 a0 os0 ex0). apply Hsub. exact H.
    + exact Hrun.
    + unfold after_store. simpl.
      destruct (dest a) as [d'|] eqn:Ed.
      * destruct (String.eqb d' d) eqn:E.
        -- apply String.eqb_eq in E. subst d'. left.
           assert (T : type_ a = TBool).
           { apply (Hbool arg a os ex); [left; reflexivity|exact Ed]. }
           rewrite (get_values_boolean a x v K T (proj1 Hx) (proj2 Hx) Hv).
           apply ns_lookup_setattr_eq.
        -- assert (Hne : d' <> d).
           { intros ->. rewrite String.eqb_refl in E. discriminate. }
           destruct Hor as [H|(arg0 & a0 & os0 & ex0 & Hin & Hd)].
           ++ left. rewrite ns_lookup_setattr_ne by exact Hne. exact H.
           ++ right. exists arg0, a0, os0, ex0. split; [|exact Hd].
              destruct Hin as [[= _ <- _ _]|Hin]; [congruence|].
              destruct Hr as [[_ ->]|[_ ->]]; [exact Hin|].
              destruct Hin as [[=]|Hin]. exact Hin.
      * destruct Hor as [H|(arg0 & a0 & os0 & ex0 & Hin & Hd)]; [left; exact H|].
        right. exists arg0, a0, os0, ex0. split; [|exact Hd].
        destruct Hin as [[= _ <- _ _]|Hin]; [congruence|].
        destruct Hr as [[_ ->]|[_ ->]]; [exact Hin|].
        destruct Hin as [[=]|Hin]. exact Hin.
Qed.

(** One round of the loop for a store option with its value attached. *)
Lemma parse_items_store_attached (arg : string) (a : action)
    (os v : string) (val : pyval) (rest : list (string * argclass))
    (st : pstate) (w : world) :
  kind a = StoreAction ->
  String.eqb v "--" = false ->
  Argparse.get_value py_int py_float str_repr a v = inr val ->
  parse_items ap ((arg, ClsO (Some a, os, Some v)) :: rest) st w
  = parse_items ap rest (after_store st a val) w.
Proof.
  intros K Hv Hval.
  unfold parse_items. simpl.
  fold (Argparse.consume_optional str_repr ap a os (Some v) rest).
  rewrite (consume_optional_store str_repr ap a os (Some v) _ K).
  unfold bind.
  fold (Argparse.take_actions py_int py_float str_repr format_usage format_help
          ap st [(a, [v], os)]).
  rewrite (take_actions_store_one py_int py_float str_repr format_usage format_help
             ap st a v os w K).
  unfold Argparse.get_values. simpl. rewrite Hv, K, Hval. reflexivity.
Qed.

End ValueFacts.

Lemma argument_parser_boolean_dest (a : action) (d : string) :
  In a (actions argument_parser) -> In d ["normalize"; "grayscale"] ->
  dest a = Some d -> type_ a = TBool.
Proof.
  intros Hin Hd. vm_compute in Hin. simpl in Hd.
  repeat (destruct Hin as [<-|Hin];
          [destruct Hd as [<-|[<-|[]]]; simpl; first [discriminate | reflexivity]|]).
  destruct Hin.
Qed.

Lemma boolean_flags_action (flag d : string) :
  In (flag, d) boolean_flags ->
  exists a,
    In a (actions argument_parser) /\ In flag (option_strings a) /\
    dest a = Some d /\ type_ a = TBool /\ kind a = StoreAction /\
    forall v,
      parse_optional argument_parser (flag +:+ "=" +:+ v) = inr (Some (Some a, flag, Some v)) /\
      String.eqb (flag +:+ "=" +:+ v) "--" = false.
Proof.
  unfold boolean_flags. simpl.
  intros [[= <- <-]|[[= <- <-]|[[= <- <-]|[[= <- <-]|[]]]]].
  - exists (Action ["-n"; "--normalize"] (Some "normalize") StoreAction false
                   (Some (VBool true)) TBool).
    split; [vm_compute; auto 12|]. split; [simpl; auto|].
    do 3 (split; [reflexivity|]). intros v. split; reflexivity.
  - exists (Action ["-n"; "--normalize"] (Some "normalize") StoreAction false
                   (Some (VBool true)) TBool).
    split; [vm_compute; auto 12|]. split; [simpl; auto|].
    do 3 (split; [reflexivity|]). intros v. split; reflexivity.
  - exists (Action ["-g"; "--grayscale"] (Some "grayscale") StoreAction false
                   (Some (VBool false)) TBool).
    split; [vm_compute; auto 12|]. split; [simpl; auto|].
    do 3 (split; [reflexivity|]). intros v. split; reflexivity.
  - exists (Action ["-g"; "--grayscale"] (Some "grayscale") StoreAction false
                   (Some (VBool false)) TBool).
    split; [vm_compute; auto 12|]. split; [simpl; auto|].
    do 3 (split; [reflexivity|]). intros v. split; reflexivity.
Qed.

Section BooleanOptions.

Variable py_int : string -> option Z.
Variable py_float : string -> option float.
Variable str_repr : string -> string.
Variable format_usage : ArgumentParser -> string.
Variable format_help : ArgumentParser -> string.

Let get_argv := get_argv py_int py_float str_repr format_usage format_help.
Let parse_args := Argparse.parse_args py_int py_float str_repr format_usage format_help.
Let parse_items := Argparse.parse_items py_int py_float str_repr format_usage format_help.

(** A command line that parses holds no separator. *)
Lemma get_argv_returns_no_separator (w w' : world) (ns : Namespace) :
  get_argv w = (Return ns, w') ->
  forall s, In s (List.tl (sys_argv w)) -> String.eqb s "--" = false.
Proof.
  intros Hrun s Hs. destruct (String.eqb s "--") eqn:E; [|reflexivity]. exfalso.
  destruct (parse_args_unrecognized py_int py_float str_repr format_usage format_help
              argument_parser (List.tl (sys_argv w)) w s Hs) as [[msg H]|[H _]];
    [unfold unrecognized; rewrite E; reflexivity|..];
    unfold get_argv in Hrun; rewrite get_argv_parse_args, H in Hrun; discriminate.
Qed.

(** Strings added at the end of a command line that parses, when all
    they do is store [val] for the action [a]. *)
Lemma get_argv_append_store (w w2 : world) (ns : Namespace) (more : list string)
    (more_items : list (string * argclass)) (a : action) (d : string) (val : pyval) :
  get_argv w = (Return ns, w) ->
  classify argument_parser more = inr more_items ->
  (forall st, parse_items argument_parser more_items st w2
              = (Return (after_store st a val), w2)) ->
  dest a = Some d ->
  List.tl (sys_argv w2) = (List.tl (sys_argv w) ++ more)%list ->
  get_argv w2 = (Return (setattr ns d val), w2).
Proof.
  intros Hrun Hmore Hstore Hd Hargs.
  pose proof (get_argv_returns_no_separator w w ns Hrun) as Hnodash.
  apply (parse_args_returns py_int py_float str_repr format_usage format_help)
    in Hrun as (items & st & Hc & Hitems & Hk & He & _).
  rewrite (check_actions_result py_int py_float str_repr (actions argument_parser) st
             argument_parser_string_defaults) in Hk.
  injection Hk as Hns Hreq.
  unfold get_argv. rewrite get_argv_parse_args, Hargs.
  unfold Argparse.parse_args.
  rewrite (classify_app argument_parser _ more items Hc Hnodash), Hmore.
  unfold bind.
  rewrite (parse_items_app py_int py_float str_repr format_usage format_help
             argument_parser (List.length items) items _ _ st w w w2 (le_n _) Hitems).
  fold parse_items. rewrite Hstore.
  rewrite (check_actions_result py_int py_float str_repr (actions argument_parser)
             (after_store st a val) argument_parser_string_defaults).
  rewrite (filter_nil_weaken
             (fun a0 => negb (seen_action st a0) && required a0) _
             (actions argument_parser)).
  - simpl. rewrite He. unfold after_store. simpl. rewrite Hd, Hns. reflexivity.
  - intros a0. unfold seen_action, after_store. simpl.
    destruct (String.eqb (action_name a0) (action_name a)); simpl; [discriminate|].
    intros H. exact H.
  - simpl in Hreq. apply List.map_eq_nil in Hreq. exact Hreq.
Qed.

(** C3. The boolean options are [normalize] and [grayscale], and their
    converter is [bool]: every non-empty string that reaches it converts
    to [True], the text [false] included, and the empty string to [False].
    So in whatever [get_argv] returns, [normalize] is true, and
    [grayscale] is true if the command line names it, as long as no string
    of the command line is empty and no option has an empty value or [--]
    attached; and a boolean flag added at the end of a command line that
    parses, with a non-empty value after it or attached to it with [=],
    sets its option to [True]. The value [--] never reaches the converter:
    an option it is attached to stores an empty list. *)
Theorem boolean_option_nonempty_is_true :
  List.map dest
    (List.filter (fun a => match type_ a with TBool => true | _ => false end)
       (actions argument_parser))
  = [Some "normalize"; Some "grayscale"] /\
  (forall v, v <> "" -> apply_type py_int py_float TBool v = Some (VBool true)) /\
  apply_type py_int py_float TBool "" = Some (VBool false) /\
  (forall w w' ns,
      get_argv w = (Return ns, w') ->
      plain_values argument_parser (List.tl (sys_argv w)) = true ->
      getattr ns "normalize" = Return (VBool true) /\
      (supplied argument_parser "grayscale" (List.tl (sys_argv w)) = true ->
       getattr ns "grayscale" = Return (VBool true))) /\
  (forall w w2 ns flag d v,
      get_argv w = (Return ns, w) ->
      In (flag, d) boolean_flags ->
      v <> "" ->
      (is_argument argument_parser v = true /\
       List.tl (sys_argv w2) = (List.tl (sys_argv w) ++ [flag; v])%list) \/
      (v <> "--" /\
       List.tl (sys_argv w2) = (List.tl (sys_argv w) ++ [flag +:+ "=" +:+ v])%list) ->
      get_argv w2 = (Return (setattr ns d (VBool true)), w2)) /\
  (forall a, Argparse.get_values py_int py_float str_repr a ["--"] = inr (VList [])).
Proof.
  assert (Htrue : forall v, v <> "" ->
                            apply_type py_int py_float TBool v = Some (VBool true)).
  { intros v Hne. unfold apply_type. rewrite (py_truthy_nonempty v Hne). reflexivity. }
  split; [reflexivity|]. split; [exact Htrue|]. split; [reflexivity|].
  split; [|split; [|intros a; reflexivity]].
  - intros w w' ns Hrun Hplain.
    pose proof (get_argv_returns_no_separator w w' ns Hrun) as Hnodash.
    apply (parse_args_returns py_int py_float str_repr format_usage format_help)
      in Hrun as (items & st & Hc & Hitems & Hk & He & _).
    rewrite (check_actions_result py_int py_float str_repr (actions argument_parser) st
               argument_parser_string_defaults) in Hk.
    injection Hk as Hns _.
    unfold plain_values in Hplain. rewrite List.forallb_forall in Hplain.
    assert (Htok : forall arg cls, In (arg, cls) items -> arg <> "" /\ arg <> "--").
    { intros arg cls Hin.
      assert (Harg : In arg (List.tl (sys_argv w))).
      { rewrite <- (classify_tokens _ _ _ Hc).
        apply List.in_map_iff. exists (arg, cls). split; [reflexivity|exact Hin]. }
      split.
      - intros ->. specialize (Hplain "" Harg). discriminate Hplain.
      - intros ->. specialize (Hnodash "--" Harg). discriminate Hnodash. }
    assert (Hex : forall arg a os e,
               In (arg, ClsO (Some a, os, Some e)) items -> e <> "" /\ e <> "--").
    { intros arg a os e Hin.
      destruct (classify_items _ _ _ Hc arg _ Hin) as [Harg Hp].
      specialize (Hplain arg Harg). apply andb_prop in Hplain as [_ Hv].
      unfold attached_value in Hv. rewrite Hp in Hv.
      unfold proper_value in Hv. apply andb_prop in Hv as [H1 H2].
      split; intros ->; discriminate. }
    assert (Hbool : forall d, In d ["normalize"; "grayscale"] ->
               forall arg a os ex,
                 In (arg, ClsO (Some a, os, ex)) items -> dest a = Some d ->
                 type_ a = TBool).
    { intros d Hd arg a os ex Hin Hdest.
      destruct (classify_items _ _ _ Hc arg _ Hin) as [_ Hp].
      exact (argument_parser_boolean_dest a d (selected_action_in _ _ _ _ _ Hp) Hd Hdest). }
    split.
    + apply getattr_lookup. rewrite <- Hns.
      apply (parse_items_boolean py_int py_float str_repr format_usage format_help
               argument_parser "normalize" (List.length items) items _ st w w (le_n _)
               Htok Hex (Hbool "normalize" (or_introl eq_refl)) Hitems).
      left. reflexivity.
    + intros Hsup. apply getattr_lookup. rewrite <- Hns.
      apply (parse_items_boolean py_int py_float str_repr format_usage format_help
               argument_parser "grayscale" (List.length items) items _ st w w (le_n _)
               Htok Hex (Hbool "grayscale" (or_intror (or_introl eq_refl))) Hitems).
      right. unfold supplied in Hsup.
      apply List.existsb_exists in Hsup as (arg & Harg & Hn).
      unfold names_option in Hn.
      destruct (selected_action argument_parser arg) as [a|] eqn:Hsel; [|discriminate].
      destruct (dest a) as [d'|] eqn:Hd; [|discriminate].
      apply String.eqb_eq in Hn. subst d'.
      destruct (selected_action_parse _ _ _ Hsel) as (os & ex & Hp).
      exists arg, a, os, ex. split; [|exact Hd].
      exact (classify_option_item _ _ _ _ _ Hc Hnodash Harg Hp).
  - intros w w2 ns flag d v Hrun Hflag Hne Hform.
    destruct (boolean_flags_action flag d Hflag) as (a & Ha & Hos & Hd & T & K & Hatt).
    assert (Hval : Argparse.get_value py_int py_float str_repr a v = inr (VBool true)).
    { unfold Argparse.get_value. rewrite T, (Htrue v Hne). reflexivity. }
    destruct Hform as [[Hv Hargs]|[Hnd Hargs]].
    + destruct (argument_parser_flag a flag Ha Hos) as [Hp Hdd].
      apply (get_argv_append_store w w2 ns [flag; v]
               [(flag, ClsO (Some a, flag, None)); (v, ClsA)] a d (VBool true) Hrun).
      * rewrite (classify_cons_option argument_parser flag _ _ Hdd Hp).
        rewrite (classify_cons_argument argument_parser v _ Hv). reflexivity.
      * intros st.
        apply (parse_items_store_next py_int py_float str_repr format_usage format_help
                 argument_parser flag a flag v (VBool true) [] st w2 K
                 (is_argument_not_dashes _ _ Hv) Hval).
      * exact Hd.
      * exact Hargs.
    + destruct (Hatt v) as [Hp Hdd].
      apply (get_argv_append_store w w2 ns [flag +:+ "=" +:+ v]
               [(flag +:+ "=" +:+ v, ClsO (Some a, flag, Some v))] a d (VBool true) Hrun).
      * rewrite (classify_cons_option argument_parser _ _ _ Hdd Hp). reflexivity.
      * intros st.
        apply (parse_items_store_attached py_int py_float str_repr format_usage format_help
                 argument_parser _ a flag v (VBool true) [] st w2 K); [|exact Hval].
        destruct (String.eqb v "--") eqn:E; [|reflexivity].
        apply String.eqb_eq in E. contradiction.
      * exact Hd.
      * exact Hargs.
Qed.

End BooleanOptions.

Lemma boolean_option_nonempty_is_true_witness :
  plain_values argument_parser
    ["-a"; "lenet"; "-d"; "data"; "-mn"; "m1"; "--normalize"; "false"; "-gno"] = true /\
  get_argv ascii_int ascii_float quoted sample_usage sample_help
    (sample_world ["trainer/main.py"; "-a"; "lenet"; "-d"; "data"; "-mn"; "m1";
                   "--normalize"; "false"; "-gno"])
  = (Return (setattr (default_namespace "lenet" "data" "m1") "grayscale" (VBool true)),
     sample_world ["trainer/main.py"; "-a"; "lenet"; "-d"; "data"; "-mn"; "m1";
                   "--normalize"; "false"; "-gno"]) /\
  getattr (setattr (default_namespace "lenet" "data" "m1") "grayscale" (VBool true))
    "normalize" = Return (VBool true) /\
  get_argv ascii_int ascii_float quoted sample_usage sample_help
    (sample_world ["trainer/main.py"; "-a"; "lenet"; "-d"; "data"; "-mn"; "m1";
                   "--normalize=false"])
  = (Return (setattr (default_namespace "lenet" "data" "m1") "normalize" (VBool true)),
     sample_world ["trainer/main.py"; "-a"; "lenet"; "-d"; "data"; "-mn"; "m1";
                   "--normalize=false"]).
Proof.
  pose proof (boolean_option_nonempty_is_true ascii_int ascii_float quoted sample_usage
                sample_help) as (_ & _ & _ & Hany & Happend & _).
  assert (Hplain : plain_values argument_parser
                     (List.tl (sys_argv (sample_world
                        ["trainer/main.py"; "-a"; "lenet"; "-d"; "data"; "-mn"; "m1";
                         "--normalize"; "false"; "-gno"]))) = true)
    by (vm_compute; reflexivity).
  assert (Hrun : get_argv ascii_int ascii_float quoted sample_usage sample_help
                   (sample_world ["trainer/main.py"; "-a"; "lenet"; "-d"; "data";
                                  "-mn"; "m1"; "--normalize"; "false"; "-gno"])
                 = (Return (setattr (default_namespace "lenet" "data" "m1")
                              "grayscale" (VBool true)),
                    sample_world ["trainer/main.py"; "-a"; "lenet"; "-d"; "data";
                                  "-mn"; "m1"; "--normalize"; "false"; "-gno"]))
    by (vm_compute; reflexivity).
  split; [exact Hplain|]. split; [exact Hrun|]. split.
  - exact (proj1 (Hany _ _ _ Hrun Hplain)).
  - apply (Happend
             (sample_world ["trainer/main.py"; "-a"; "lenet"; "-d"; "data"; "-mn"; "m1"])
             _ _ "--normalize" "normalize" "false").
    + vm_compute. reflexivity.
    + unfold boolean_flags. simpl. auto.
    + discriminate.
    + right. split; [discriminate|reflexivity].
Defined.

(** The value [--] is a non-empty string, yet attached to a boolean
    option it does not make the option true: [_get_values] drops it, no
    string reaches [bool], and an empty list is stored. *)
Lemma boolean_option_attached_dashes_is_not_true :
  "--" <> "" /\
  attached_value argument_parser "--normalize=--" = Some "--" /\
  get_argv ascii_int ascii_float quoted sample_usage sample_help
    (sample_world ["trainer/main.py"; "-a"; "lenet"; "-d"; "data"; "-mn"; "m1";
                   "--normalize=--"])
  = (Return (setattr (default_namespace "lenet" "data" "m1") "normalize" (VList [])),
     sample_world ["trainer/main.py"; "-a"; "lenet"; "-d"; "data"; "-mn"; "m1";
                   "--normalize=--"]) /\
  getattr (setattr (default_namespace "lenet" "data" "m1") "normalize" (VList []))
    "normalize" = Return (VList []) /\
  VList [] <> VBool true /\
  py_truthy (VList []) = false.
Proof.
  split; [discriminate|]. split; [vm_compute; reflexivity|].
  split; [vm_compute; reflexivity|]. split; [reflexivity|].
  split; [discriminate|reflexivity].
Qed.


Lemma write_training_report_unwritable_witness :
  write_training_report quoted sample_float_repr
    (default_namespace "lenet" "data" "test1") sample_modelparams "report"
    (World ["trainer/main.py"] "" "" "2018-06-01 12:00:00.000000"
       (fun path =>
          Some (PyExn "FileNotFoundError"
                  ("[Errno 2] No such file or directory: " +:+ quoted path)))
       ∅)
  = (Raise (PyExn "FileNotFoundError"
              "[Errno 2] No such file or directory: 'output/reports/test1_report.txt'"),
     World ["trainer/main.py"] "" "" "2018-06-01 12:00:00.000000"
       (fun path =>
          Some (PyExn "FileNotFoundError"
                  ("[Errno 2] No such file or directory: " +:+ quoted path)))
       ∅) /\
  write_training_report quoted sample_float_repr
    (default_namespace "lenet" "data" "test1") sample_modelparams "report"
    (set_file (sample_world ["trainer/main.py"]) "output/reports/test1_report.txt"
       "the report of an earlier run")
  = write_training_report quoted sample_float_repr
      (default_namespace "lenet" "data" "test1") sample_modelparams "report"
      (sample_world ["trainer/main.py"]).
Proof.
  split.
  - apply (proj1 (proj2 (write_training_report_unwritable quoted sample_float_repr
                           (default_namespace "lenet" "data" "test1") sample_modelparams
                           "report"
                           (World ["trainer/main.py"] "" "" "2018-06-01 12:00:00.000000"
                              (fun path =>
                                 Some (PyExn "FileNotFoundError"
                                         ("[Errno 2] No such file or directory: " +:+
                                          quoted path)))
                              ∅))
                        (VStr "test1") eq_refl)).
    reflexivity.
  - apply (proj2 (proj2 (write_training_report_unwritable quoted sample_float_repr
                           (default_namespace "lenet" "data" "test1") sample_modelparams
                           "report" (sample_world ["trainer/main.py"]))
                        (VStr "test1") eq_refl)).
    reflexivity.
Defined.
